(** * user_auth.py: a credential store over an embedded SQL table

    A shallow embedding of [samples/user_auth.py]: the [UserManager] class
    (three methods over one [sqlite3] connection), the two free functions
    and the module-level counter.

    Conventions of the model.
    - A Python [str] is a [string]; each [ascii] is one code point below 256.
    - Python's [int] is [Z].
    - The interpreter state is a record [world]; every function of the source
      is a state-passing function returning an [outcome] and the next state.
    - The three libraries the file calls are modelled next to the code:
      [hashlib.md5] (RFC 1321, in full), [sqlite3]'s [Connection.execute] on
      the statements the three methods can build (module [Sql]), and
      [os.system] on blank-separated command lists (module [Sh]).  Input on
      which a library model is silent yields [Unmodelled]; no theorem below
      concludes anything from that outcome.
    - What lies outside the file is given to the model: whether the engine
      accepts a [commit] ([Sql.commit_fate]), and what a program started by
      the shell does to [users.db] and to the output streams (the field
      [programs] of [world]).
    - An [int] of more than 4300 digits is not converted to text (the
      default limit of the interpreter).  Other resource limits (memory,
      disk, statement length) are not modelled. *)

From Stdlib Require Import ZArith List String Ascii Bool Lia.
From Stdlib Require Import DecimalString DecimalN.
Import ListNotations.

Local Open Scope string_scope.
Local Open Scope list_scope.

(** ** Strings *)

Fixpoint all_chars (p : ascii -> bool) (s : string) : bool :=
  match s with
  | EmptyString => true
  | String c s' => p c && all_chars p s'
  end.

Fixpoint has_char (p : ascii -> bool) (s : string) : bool :=
  match s with
  | EmptyString => false
  | String c s' => p c || has_char p s'
  end.

(** ** hashlib.md5 *)

Module MD5.
Local Open Scope Z_scope.

Definition w32 (x : Z) : Z := x mod 4294967296.

Definition rotl (x c : Z) : Z :=
  w32 (Z.lor (Z.shiftl x c) (Z.shiftr x (32 - c))).

Definition not32 (x : Z) : Z := Z.lxor x 4294967295.

(** Per-round shift amounts. *)
Definition shifts : list Z :=
  [7; 12; 17; 22; 7; 12; 17; 22; 7; 12; 17; 22; 7; 12; 17; 22;
   5; 9; 14; 20; 5; 9; 14; 20; 5; 9; 14; 20; 5; 9; 14; 20;
   4; 11; 16; 23; 4; 11; 16; 23; 4; 11; 16; 23; 4; 11; 16; 23;
   6; 10; 15; 21; 6; 10; 15; 21; 6; 10; 15; 21; 6; 10; 15; 21].

(** [floor (2^32 * abs (sin (i + 1)))] for [i] from 0 to 63. *)
Definition sines : list Z :=
  [3614090360; 3905402710; 606105819; 3250441966;
   4118548399; 1200080426; 2821735955; 4249261313;
   1770035416; 2336552879; 4294925233; 2304563134;
   1804603682; 4254626195; 2792965006; 1236535329;
   4129170786; 3225465664; 643717713; 3921069994;
   3593408605; 38016083; 3634488961; 3889429448;
   568446438; 3275163606; 4107603335; 1163531501;
   2850285829; 4243563512; 1735328473; 2368359562;
   4294588738; 2272392833; 1839030562; 4259657740;
   2763975236; 1272893353; 4139469664; 3200236656;
   681279174; 3936430074; 3572445317; 76029189;
   3654602809; 3873151461; 530742520; 3299628645;
   4096336452; 1126891415; 2878612391; 4237533241;
   1700485571; 2399980690; 4293915773; 2240044497;
   1873313359; 4264355552; 2734768916; 1309151649;
   4149444226; 3174756917; 718787259; 3951481745].

Record regs : Type := Regs { rA : Z; rB : Z; rC : Z; rD : Z }.

Definition iv : regs :=
  Regs 1732584193 4023233417 2562383102 271733878.

(** One of the 64 operations on a 16-word block [m]. *)
Definition round (m : list Z) (r : regs) (i : nat) : regs :=
  let '(Regs a b c d) := r in
  let zi := Z.of_nat i in
  let '(f, g) :=
    if zi <? 16 then (Z.lor (Z.land b c) (Z.land (not32 b) d), zi)
    else if zi <? 32 then
      (Z.lor (Z.land d b) (Z.land (not32 d) c), (5 * zi + 1) mod 16)
    else if zi <? 48 then (Z.lxor (Z.lxor b c) d, (3 * zi + 5) mod 16)
    else (Z.lxor c (Z.lor b (not32 d)), (7 * zi) mod 16) in
  let f' := w32 (f + a + nth i sines 0 + nth (Z.to_nat g) m 0) in
  Regs d (w32 (b + rotl f' (nth i shifts 0))) b c.

(** Four bytes, least significant first, to a word and back. *)
Definition word_of_bytes (bs : list Z) : Z :=
  fold_right (fun b acc => b + 256 * acc) 0 bs.

Definition bytes_of_word (n : nat) (w : Z) : list Z :=
  map (fun k => (w / 256 ^ Z.of_nat k) mod 256) (seq 0 n).

Fixpoint words (n : nat) (bs : list Z) : list Z :=
  match n with
  | O => []
  | S n' => word_of_bytes (firstn 4 bs) :: words n' (skipn 4 bs)
  end.

Definition compress (r : regs) (block : list Z) : regs :=
  let '(Regs a b c d) := fold_left (round (words 16 block)) (seq 0 64) r in
  Regs (w32 (rA r + a)) (w32 (rB r + b)) (w32 (rC r + c)) (w32 (rD r + d)).

Definition pad (msg : list Z) : list Z :=
  let len := Z.of_nat (List.length msg) in
  msg ++ [128] ++ repeat 0 (Z.to_nat ((55 - len) mod 64))
      ++ bytes_of_word 8 ((8 * len) mod 2 ^ 64).

Fixpoint blocks (n : nat) (r : regs) (bs : list Z) : regs :=
  match n with
  | O => r
  | S n' => blocks n' (compress r (firstn 64 bs)) (skipn 64 bs)
  end.

Definition digest (msg : list Z) : list Z :=
  let p := pad msg in
  let '(Regs a b c d) := blocks (List.length p / 64) iv p in
  bytes_of_word 4 a ++ bytes_of_word 4 b
    ++ bytes_of_word 4 c ++ bytes_of_word 4 d.

End MD5.

(** [str.encode()]: UTF-8, for code points below 256. *)
Definition encode_char (c : ascii) : list Z :=
  let n := Z.of_N (N_of_ascii c) in
  if (n <? 128)%Z then [n] else [192 + n / 64; 128 + n mod 64]%Z.

Fixpoint encode (s : string) : list Z :=
  match s with
  | EmptyString => []
  | String c s' => encode_char c ++ encode s'
  end.

Definition hex_digit (n : Z) : ascii :=
  match String.get (Z.to_nat (n mod 16)) "0123456789abcdef" with
  | Some c => c
  | None => "0"%char
  end.

(** [hexdigest()]: two lowercase hexadecimal digits per byte. *)
Fixpoint hexdigest (bs : list Z) : string :=
  match bs with
  | [] => EmptyString
  | b :: bs' => String (hex_digit (b / 16)) (String (hex_digit b) (hexdigest bs'))
  end.

(** [hashlib.md5(password.encode()).hexdigest()] *)
Definition md5_hex (password : string) : string :=
  hexdigest (MD5.digest (encode password)).


(** ** sqlite3: the connection's [execute] on the statements of this file *)

Module Sql.

(** The table created by [UserManager.__init__]:
    [users (id INTEGER PRIMARY KEY, username TEXT, password TEXT, email TEXT)].
    A row is what [fetchone()] returns for [SELECT *].  A table lists its
    rows in the order in which the engine scans them, and holds text in the
    three text columns, which is all that the statements of the fragment
    below can store. *)
Record row : Type := Row {
  col_id : Z;
  col_username : string;
  col_password : string;
  col_email : string
}.

Definition table : Type := list row.

(** *** Tokens

    The tokenizer reads one character at a time.  [TIllegal] is an
    unterminated string literal; [TBeyond] marks the first character the
    model does not tokenize (operators, quoted identifiers, blob and
    floating-point literals, block comments, parameters), and ends the token
    list there. *)
Inductive token : Type :=
| TWord (w : string)
| TStr (s : string)
| TInt (digits : string)
| TLParen | TRParen | TComma | TEq | TStar | TSemi | TMinus
| TIllegal
| TBeyond.

Inductive mode : Type :=
| Normal
| InWord (acc : string)
| InInt (acc : string)
| InStr (acc : string)
| StrQuote (acc : string)
| Minus
| Comment.

Definition code (c : ascii) : N := N_of_ascii c.

Definition is_space (c : ascii) : bool :=
  let n := code c in
  ((n =? 32) || (n =? 9) || (n =? 10) || (n =? 12) || (n =? 13))%N.

Definition is_digit (c : ascii) : bool :=
  let n := code c in ((48 <=? n) && (n <=? 57))%N.

Definition is_alpha (c : ascii) : bool :=
  let n := code c in
  (((65 <=? n) && (n <=? 90)) || ((97 <=? n) && (n <=? 122)) || (n =? 95))%N.

(** Characters that also continue an identifier: [$] and the bytes of
    code points above 127. *)
Definition is_ident_extra (c : ascii) : bool :=
  let n := code c in ((n =? 36) || (128 <=? n))%N.

Definition quote : ascii := "'"%char.

Definition snoc (s : string) (c : ascii) : string := s ++ String c EmptyString.

Definition step_normal (c : ascii) : list token * option mode :=
  if is_space c then ([], Some Normal)
  else if is_alpha c then ([], Some (InWord (String c EmptyString)))
  else if is_digit c then ([], Some (InInt (String c EmptyString)))
  else if Ascii.eqb c quote then ([], Some (InStr EmptyString))
  else if Ascii.eqb c "-" then ([], Some Minus)
  else if Ascii.eqb c "(" then ([TLParen], Some Normal)
  else if Ascii.eqb c ")" then ([TRParen], Some Normal)
  else if Ascii.eqb c "," then ([TComma], Some Normal)
  else if Ascii.eqb c "=" then ([TEq], Some Normal)
  else if Ascii.eqb c "*" then ([TStar], Some Normal)
  else if Ascii.eqb c ";" then ([TSemi], Some Normal)
  else ([TBeyond], None).

Definition after (t : token) (c : ascii) : list token * option mode :=
  let '(ts, m) := step_normal c in (t :: ts, m).

Definition step (m : mode) (c : ascii) : list token * option mode :=
  match m with
  | Normal => step_normal c
  | InWord acc =>
      if is_alpha c || is_digit c then ([], Some (InWord (snoc acc c)))
      else if is_ident_extra c then ([TBeyond], None)
      else if Ascii.eqb c quote
              && (String.eqb acc "x" || String.eqb acc "X")
      then ([TBeyond], None)
      else after (TWord acc) c
  | InInt acc =>
      if is_digit c then ([], Some (InInt (snoc acc c)))
      else if is_alpha c || is_ident_extra c || Ascii.eqb c "."
      then ([TBeyond], None)
      else after (TInt acc) c
  | InStr acc =>
      if Ascii.eqb c quote then ([], Some (StrQuote acc))
      else ([], Some (InStr (snoc acc c)))
  | StrQuote acc =>
      if Ascii.eqb c quote then ([], Some (InStr (snoc acc quote)))
      else after (TStr acc) c
  | Minus =>
      if Ascii.eqb c "-" then ([], Some Comment)
      else after TMinus c
  | Comment =>
      if (code c =? 10)%N then ([], Some Normal) else ([], Some Comment)
  end.

(** What is pending when the text ends. *)
Definition flush (m : mode) : list token :=
  match m with
  | Normal | Comment => []
  | InWord acc => [TWord acc]
  | InInt acc => [TInt acc]
  | InStr _ => [TIllegal]
  | StrQuote acc => [TStr acc]
  | Minus => [TMinus]
  end.

Fixpoint lex (m : mode) (s : string) : list token :=
  match s with
  | EmptyString => flush m
  | String c s' =>
      match step m c with
      | (ts, Some m') => ts ++ lex m' s'
      | (ts, None) => ts
      end
  end.

Definition tokens (sql : string) : list token := lex Normal sql.

(** *** Statements *)

Definition token_eqb (a b : token) : bool :=
  match a, b with
  | TWord x, TWord y => String.eqb x y
  | TStr x, TStr y => String.eqb x y
  | TInt x, TInt y => String.eqb x y
  | TLParen, TLParen | TRParen, TRParen | TComma, TComma | TEq, TEq
  | TStar, TStar | TSemi, TSemi | TMinus, TMinus
  | TIllegal, TIllegal | TBeyond, TBeyond => true
  | _, _ => false
  end.

Fixpoint strip (head ts : list token) : option (list token) :=
  match head, ts with
  | [], _ => Some ts
  | h :: head', t :: ts' => if token_eqb h t then strip head' ts' else None
  | _ :: _, [] => None
  end.

(** How a statement may end: nothing, or one [;] and then nothing.  Any
    other text after the [;] is a second statement, which [execute] refuses
    before it runs the first. *)
Inductive ending : Type := EndOk | EndMany | EndBeyond.

Definition statement_end (ts : list token) : ending :=
  match ts with
  | [] => EndOk
  | [TSemi] => EndOk
  | TSemi :: TBeyond :: _ => EndBeyond
  | TSemi :: _ :: _ => EndMany
  | _ => EndBeyond
  end.

Inductive result : Type :=
| Done (db : table) (rows : list row)
| Failed (msg : string)
| Beyond.

Definition one_statement : string :=
  "You can only execute one statement at a time.".

Definition null_character : string :=
  "the query contains a null character".

(** **** INSERT INTO users (username, password, email) VALUES (...), ... *)

Definition insert_head : list token :=
  [TWord "INSERT"; TWord "INTO"; TWord "users"; TLParen; TWord "username";
   TComma; TWord "password"; TComma; TWord "email"; TRParen; TWord "VALUES"].

(** The keywords of the engine.  A word that is none of them is an
    identifier. *)
Definition keywords : list string :=
  ["ABORT"; "ACTION"; "ADD"; "AFTER"; "ALL"; "ALTER"; "ALWAYS"; "ANALYZE";
   "AND"; "AS"; "ASC"; "ATTACH"; "AUTOINCREMENT"; "BEFORE"; "BEGIN";
   "BETWEEN"; "BY"; "CASCADE"; "CASE"; "CAST"; "CHECK"; "COLLATE"; "COLUMN";
   "COMMIT"; "CONFLICT"; "CONSTRAINT"; "CREATE"; "CROSS"; "CURRENT";
   "CURRENT_DATE"; "CURRENT_TIME"; "CURRENT_TIMESTAMP"; "DATABASE";
   "DEFAULT"; "DEFERRABLE"; "DEFERRED"; "DELETE"; "DESC"; "DETACH";
   "DISTINCT"; "DO"; "DROP"; "EACH"; "ELSE"; "END"; "ESCAPE"; "EXCEPT";
   "EXCLUDE"; "EXCLUSIVE"; "EXISTS"; "EXPLAIN"; "FAIL"; "FILTER"; "FIRST";
   "FOLLOWING"; "FOR"; "FOREIGN"; "FROM"; "FULL"; "GENERATED"; "GLOB";
   "GROUP"; "GROUPS"; "HAVING"; "IF"; "IGNORE"; "IMMEDIATE"; "IN"; "INDEX";
   "INDEXED"; "INITIALLY"; "INNER"; "INSERT"; "INSTEAD"; "INTERSECT";
   "INTO"; "IS"; "ISNULL"; "JOIN"; "KEY"; "LAST"; "LEFT"; "LIKE"; "LIMIT";
   "MATCH"; "MATERIALIZED"; "NATURAL"; "NO"; "NOT"; "NOTHING"; "NOTNULL";
   "NULL"; "NULLS"; "OF"; "OFFSET"; "ON"; "OR"; "ORDER"; "OTHERS"; "OUTER";
   "OVER"; "PARTITION"; "PLAN"; "PRAGMA"; "PRECEDING"; "PRIMARY"; "QUERY";
   "RAISE"; "RANGE"; "RECURSIVE"; "REFERENCES"; "REGEXP"; "REINDEX";
   "RELEASE"; "RENAME"; "REPLACE"; "RESTRICT"; "RETURNING"; "RIGHT";
   "ROLLBACK"; "ROW"; "ROWS"; "SAVEPOINT"; "SELECT"; "SET"; "TABLE"; "TEMP";
   "TEMPORARY"; "THEN"; "TIES"; "TO"; "TRANSACTION"; "TRIGGER"; "UNBOUNDED";
   "UNION"; "UNIQUE"; "UPDATE"; "USING"; "VACUUM"; "VALUES"; "VIEW";
   "VIRTUAL"; "WHEN"; "WHERE"; "WINDOW"; "WITH"; "WITHIN"; "WITHOUT"].

Definition upper_char (c : ascii) : ascii :=
  let n := code c in
  if ((97 <=? n) && (n <=? 122))%N then ascii_of_N (n - 32) else c.

Fixpoint upper (s : string) : string :=
  match s with
  | EmptyString => EmptyString
  | String c s' => String (upper_char c) (upper s')
  end.

Definition is_keyword (w : string) : bool :=
  existsb (String.eqb (upper w)) keywords.

Definition dquote : string := String (ascii_of_N 34) EmptyString.

(** The text of the error for a token that cannot follow what was read. *)
Definition syntax_error (near : string) : string :=
  (("near " ++ dquote) ++ (near ++ (dquote ++ ": syntax error")))%string.

(** What the rows after [VALUES] read as: rows of three string literals
    and the tokens left; or an identifier where a row, a literal or the
    statement has just ended, which the parser refuses at once; or
    something the model does not parse. *)
Inductive parsed : Type :=
| Rows (vs : list (string * string * string)) (rest : list token)
| Misplaced (w : string)
| NoParse.

Definition misplaced (w : string) : parsed :=
  if is_keyword w then NoParse else Misplaced w.

Fixpoint values_rows (ts : list token) : parsed :=
  match ts with
  | TLParen :: TStr a :: TComma :: TStr b :: TComma :: TStr c :: TRParen
      :: rest =>
      match rest with
      | TComma :: TWord w :: _ => misplaced w
      | TComma :: rest' =>
          match values_rows rest' with
          | Rows vs r => Rows ((a, b, c) :: vs) r
          | other => other
          end
      | TWord w :: _ => misplaced w
      | _ => Rows [(a, b, c)] rest
      end
  | TLParen :: TStr _ :: TWord w :: _ => misplaced w
  | TLParen :: TStr _ :: TComma :: TStr _ :: TWord w :: _ => misplaced w
  | TLParen :: TStr _ :: TComma :: TStr _ :: TComma :: TStr _ :: TWord w :: _ =>
      misplaced w
  | _ => NoParse
  end.

Definition max_rowid : Z := 9223372036854775807.

Fixpoint largest_rowid (db : table) : option Z :=
  match db with
  | [] => None
  | r :: db' =>
      match largest_rowid db' with
      | None => Some (col_id r)
      | Some m => Some (Z.max (col_id r) m)
      end
  end.

(** A row inserted without an [id] gets the largest rowid plus one (1 in an
    empty table).  When the largest rowid is the largest 64-bit integer the
    engine tries rowids at random: not modelled. *)
Definition next_rowid (db : table) : option Z :=
  match largest_rowid db with
  | None => Some 1%Z
  | Some m => if (m <? max_rowid)%Z then Some (m + 1)%Z else None
  end.

Fixpoint insert_rows (db : table) (vs : list (string * string * string))
  : option table :=
  match vs with
  | [] => Some db
  | (u, p, e) :: vs' =>
      match next_rowid db with
      | Some i => insert_rows (db ++ [Row i u p e]) vs'
      | None => None
      end
  end.

Definition run_insert (db : table) (ts : list token) : result :=
  match values_rows ts with
  | Rows vs rest =>
      match statement_end rest with
      | EndOk =>
          match insert_rows db vs with
          | Some db' => Done db' []
          | None => Beyond
          end
      | EndMany => Failed one_statement
      | EndBeyond => Beyond
      end
  | Misplaced w => Failed (syntax_error w)
  | NoParse => Beyond
  end.

(** **** SELECT * FROM users WHERE ... *)

Definition select_head : list token :=
  [TWord "SELECT"; TStar; TWord "FROM"; TWord "users"; TWord "WHERE"].

Inductive column : Type := CId | CUsername | CPassword | CEmail.

Inductive operand : Type :=
| OCol (c : column)
| OStr (s : string)
| ONum (z : Z).

Definition column_of (w : string) : option column :=
  if String.eqb w "id" then Some CId
  else if String.eqb w "username" then Some CUsername
  else if String.eqb w "password" then Some CPassword
  else if String.eqb w "email" then Some CEmail
  else None.

Definition number_of (digits : string) : option Z :=
  match NilEmpty.uint_of_string digits with
  | Some d => Some (Z.of_N (N.of_uint d))
  | None => None
  end.

Definition parse_operand (ts : list token) : option (operand * list token) :=
  match ts with
  | TWord w :: rest =>
      match column_of w with
      | Some c => Some (OCol c, rest)
      | None => None
      end
  | TStr s :: rest => Some (OStr s, rest)
  | TInt ds :: rest =>
      match number_of ds with
      | Some z => Some (ONum z, rest)
      | None => None
      end
  | TMinus :: TInt ds :: rest =>
      match number_of ds with
      | Some z => Some (ONum (- z), rest)
      | None => None
      end
  | _ => None
  end.

Definition comparison : Type := (operand * operand)%type.

Definition parse_comparison (ts : list token)
  : option (comparison * list token) :=
  match parse_operand ts with
  | Some (a, TEq :: rest) =>
      match parse_operand rest with
      | Some (b, rest') => Some ((a, b), rest')
      | None => None
      end
  | _ => None
  end.

(** A condition is a conjunction of comparisons; [cur] holds the ones read
    so far.  A condition with [OR] is left out: the engine may then return
    the rows in another order than that of the table. *)
Fixpoint parse_more (fuel : nat) (cur : list comparison) (ts : list token)
  : option (list comparison * list token) :=
  match fuel with
  | O => None
  | S fuel' =>
      match ts with
      | TWord w :: rest =>
          if String.eqb w "AND" then
            match parse_comparison rest with
            | Some (c, rest') => parse_more fuel' (cur ++ [c]) rest'
            | None => None
            end
          else None
      | _ => Some (cur, ts)
      end
  end.

Definition parse_condition (ts : list token)
  : option (list comparison * list token) :=
  match parse_comparison ts with
  | Some (c, rest) => parse_more (S (List.length rest)) [c] rest
  | None => None
  end.

Definition int64 (z : Z) : bool :=
  ((- 9223372036854775808 <=? z) && (z <=? max_rowid))%Z.

Inductive value : Type := VText (s : string) | VInt (z : Z).

Definition column_value (c : column) (r : row) : value :=
  match c with
  | CId => VInt (col_id r)
  | CUsername => VText (col_username r)
  | CPassword => VText (col_password r)
  | CEmail => VText (col_email r)
  end.

Definition operand_value (o : operand) (r : row) : value :=
  match o with
  | OCol c => column_value c r
  | OStr s => VText s
  | ONum z => VInt z
  end.

(** Comparisons the model evaluates: text with text (bytewise), and the
    integer column with an integer literal or two 64-bit integer literals
    (exactly).  Comparisons that convert between storage classes, or that
    read a literal as a floating-point number, are left out. *)
Definition comparable (c : comparison) : bool :=
  match c with
  | (OStr _, OStr _) | (OStr _, OCol CUsername) | (OStr _, OCol CPassword)
  | (OStr _, OCol CEmail) | (OCol CUsername, OStr _)
  | (OCol CPassword, OStr _) | (OCol CEmail, OStr _) => true
  | (OCol CId, OCol CId) | (OCol CId, ONum _) | (ONum _, OCol CId) => true
  | (ONum a, ONum b) => int64 a && int64 b
  | (OCol a, OCol b) =>
      match a, b with
      | CId, _ | _, CId => false
      | _, _ => true
      end
  | _ => false
  end.

Definition holds (r : row) (c : comparison) : bool :=
  match operand_value (fst c) r, operand_value (snd c) r with
  | VText a, VText b => String.eqb a b
  | VInt a, VInt b => (a =? b)%Z
  | _, _ => false
  end.

Definition satisfies (cond : list comparison) (r : row) : bool :=
  forallb (holds r) cond.

Definition run_select (db : table) (ts : list token) : result :=
  match parse_condition ts with
  | Some (cond, rest) =>
      match statement_end rest with
      | EndOk =>
          if forallb comparable cond
          then Done db (filter (satisfies cond) db)
          else Beyond
      | EndMany => Failed one_statement
      | EndBeyond => Beyond
      end
  | None => Beyond
  end.

(** **** [Connection.execute] and [Connection.commit] *)

Definition run (db : table) (ts : list token) : result :=
  match strip insert_head ts with
  | Some rest => run_insert db rest
  | None =>
      match strip select_head ts with
      | Some rest => run_select db rest
      | None => Beyond
      end
  end.

Fixpoint has_nul (s : string) : bool :=
  match s with
  | EmptyString => false
  | String c s' => (code c =? 0)%N || has_nul s'
  end.

Definition execute (db : table) (sql : string) : result :=
  if has_nul sql then Failed null_character else run db (tokens sql).

(** What becomes of a [commit]: it goes through, or the engine refuses it
    with an error text and leaves the transaction open, as it does while
    another connection holds a lock on the file.  (The failures after which
    the engine itself rolls the transaction back, a full disk or an I/O
    error, are not modelled.) *)
Inductive commit_fate : Type :=
| Committed
| Refused (msg : string).

(** [Connection.commit()] when the statements of the open transaction have
    made the table [pending]: the error raised, if any, and the table the
    connection sees afterwards. *)
Definition commit (fate : commit_fate) (pending : table)
  : option string * table :=
  match fate with
  | Committed => (None, pending)
  | Refused msg => (Some msg, pending)
  end.

(** [Cursor.fetchone()] *)
Definition fetchone (rows : list row) : option row := hd_error rows.

End Sql.

(** ** os.system: the command text handed to [sh -c] *)

Module Sh.

(** The fragment: simple commands separated by [;], words separated by
    blanks and built from letters, digits and [_ - . /], at most one empty
    command, at the end.  A command is the builtin [echo] (whose first
    argument does not start with [-]) or a program named by a path with a
    slash, which the shell executes as it stands.  Everything else (quoting,
    expansions, redirections, pipes, other builtins, reserved words) is left
    out. *)
Inductive action : Type :=
| Echo (line : string)
| Spawn (argv : list string).

Definition is_blank (c : ascii) : bool :=
  Ascii.eqb c " " || (N_of_ascii c =? 9)%N.

Definition is_plain (c : ascii) : bool :=
  Sql.is_alpha c || Sql.is_digit c || Ascii.eqb c "-" || Ascii.eqb c "."
  || Ascii.eqb c "/".

(** Cuts [s] at every character that satisfies [sep]; [cur] is the piece
    being read. *)
Fixpoint split (sep : ascii -> bool) (cur : string) (s : string)
  : list string :=
  match s with
  | EmptyString => [cur]
  | String c s' =>
      if sep c then cur :: split sep EmptyString s'
      else split sep (cur ++ String c EmptyString)%string s'
  end.

Definition nonempty (s : string) : bool :=
  match s with EmptyString => false | _ => true end.

Definition words (segment : string) : list string :=
  filter nonempty (split is_blank EmptyString segment).

Fixpoint join (ws : list string) : string :=
  match ws with
  | [] => EmptyString
  | [w] => w
  | w :: ws' => (w ++ " " ++ join ws')%string
  end.

Definition starts_with_dash (w : string) : bool :=
  match w with
  | String c _ => Ascii.eqb c "-"
  | EmptyString => false
  end.

Definition simple_command (argv : list string) : option action :=
  match argv with
  | [] => None
  | prog :: args =>
      if String.eqb prog "echo" then
        match args with
        | a :: _ => if starts_with_dash a then None else Some (Echo (join args))
        | [] => Some (Echo EmptyString)
        end
      else if has_char (fun c => Ascii.eqb c "/") prog then Some (Spawn argv)
      else None
  end.

Fixpoint command_list (segments : list (list string)) : option (list action) :=
  match segments with
  | [] => Some []
  | [[]] => Some []
  | argv :: rest =>
      match simple_command argv, command_list rest with
      | Some a, Some acts => Some (a :: acts)
      | _, _ => None
      end
  end.

Definition system (command : string) : option (list action) :=
  if all_chars (fun c => is_plain c || is_blank c || Ascii.eqb c ";") command
  then command_list (map words (split (fun c => Ascii.eqb c ";")
                                      EmptyString command))
  else None.

End Sh.

(** ** The module and its functions *)

(** How a call ends.  [Unmodelled]: a library was given input on which its
    model is silent. *)
Inductive outcome (A : Type) : Type :=
| Returns (a : A)
| Raises (msg : string)
| Unmodelled.

Arguments Returns {A} a.
Arguments Raises {A} msg.
Arguments Unmodelled {A}.

(** An argument formatted into a statement by an f-string. *)
Inductive pyval : Type :=
| PyInt (z : Z)
| PyStr (s : string).

(** The decimal text of an integer. *)
Definition decimal (z : Z) : string := NilZero.string_of_int (Z.to_int z).

(** The interpreter converts no integer of more than 4300 digits to
    text. *)
Definition max_str_digits : Z := 4300.

Definition too_long (z : Z) : bool := (10 ^ max_str_digits <=? Z.abs z)%Z.

Definition digit_limit : string :=
  "Exceeds the limit (4300 digits) for integer string conversion; use sys.set_int_max_str_digits() to increase the limit".

(** [str] of an [int], as the f-string applies it. *)
Definition str_int (z : Z) : outcome string :=
  if too_long z then Raises digit_limit else Returns (decimal z).

Definition format (v : pyval) : outcome string :=
  match v with
  | PyInt z => str_int z
  | PyStr s => Returns s
  end.

(** What the programs of the machine do.  A program that the shell starts
    with the arguments [argv] finds the table of [users.db], the lines on
    standard output and those on standard error, and leaves them as the
    function says; [None] where the model cannot say (the program does not
    return, or what it leaves in [users.db] is no such table).  The message
    of the shell for a path it cannot execute counts as the program's. *)
Definition machine : Type :=
  list string -> Sql.table * list string * list string
  -> option (Sql.table * list string * list string).

(** The module globals, the table [users] of [users.db] as [self.conn] sees
    it, the lines written to the two output streams of the process, the
    program paths, with their arguments, that the shell was made to
    execute, and the programs of the machine. *)
Record world : Type := World {
  SECRET_KEY : string;
  global_counter : Z;
  users : Sql.table;
  stdout : list string;
  stderr : list string;
  spawned : list (list string);
  programs : machine
}.

Definition set_SECRET_KEY (k : string) (w : world) : world :=
  World k (global_counter w) (users w) (stdout w) (stderr w) (spawned w)
        (programs w).

Definition set_global_counter (n : Z) (w : world) : world :=
  World (SECRET_KEY w) n (users w) (stdout w) (stderr w) (spawned w)
        (programs w).

Definition set_users (db : Sql.table) (w : world) : world :=
  World (SECRET_KEY w) (global_counter w) db (stdout w) (stderr w) (spawned w)
        (programs w).

(** [print(line)] *)
Definition print (line : string) (w : world) : world :=
  World (SECRET_KEY w) (global_counter w) (users w) (stdout w ++ [line])
        (stderr w) (spawned w) (programs w).

(** The shell starts the program [argv] and waits for it. *)
Definition spawn (argv : list string) (w : world) : option world :=
  match programs w argv (users w, stdout w, stderr w) with
  | Some (db, out, err) =>
      Some (World (SECRET_KEY w) (global_counter w) db out err
                  (spawned w ++ [argv]) (programs w))
  | None => None
  end.

(** A machine of which the model knows one program: [/usr/bin/id] without
    arguments, run by root, prints one line and touches nothing. *)
Definition id_only : machine :=
  fun argv seen =>
    match argv with
    | [prog] =>
        if String.eqb prog "/usr/bin/id"
        then let '(db, out, err) := seen in
             Some (db, out ++ ["uid=0(root) gid=0(root) groups=0(root)"], err)
        else None
    | _ => None
    end.

(** The state after the module is loaded and [UserManager()] has run where
    no [users.db] existed: [CREATE TABLE IF NOT EXISTS] gives an empty
    table (and leaves an existing one as it is). *)
Definition fresh : world :=
  World "my_super_secret_key_123" 0 [] [] [] [] id_only.

Definition insert_query (username password_hash email : string) : string :=
  ("INSERT INTO users (username, password, email) VALUES ('" ++ username
    ++ "', '" ++ password_hash ++ "', '" ++ email ++ "')")%string.

(** [create_user] in an environment that settles the fate of its
    [commit].  Both storage calls are in the [try]; the handler prints and
    returns false, and does not roll a refused transaction back. *)
Definition create_user_when (fate : Sql.commit_fate)
           (username password email : string) (w : world)
  : outcome bool * world :=
  let password_hash := md5_hex password in
  let query := insert_query username password_hash email in
  match Sql.execute (users w) query with
  | Sql.Done db _ =>
      match Sql.commit fate db with
      | (None, db') => (Returns true, set_users db' w)
      | (Some e, db') =>
          (Returns false,
           print ("Database error: " ++ e)%string (set_users db' w))
      end
  | Sql.Failed e => (Returns false, print ("Database error: " ++ e)%string w)
  | Sql.Beyond => (Unmodelled, w)
  end.

(** [create_user] where the commit goes through. *)
Definition create_user (username password email : string) (w : world)
  : outcome bool * world :=
  create_user_when Sql.Committed username password email w.

Definition select_query (username password_hash : string) : string :=
  ("SELECT * FROM users WHERE username = '" ++ username
    ++ "' AND password = '" ++ password_hash ++ "'")%string.

Definition authenticate (username password : string) (w : world)
  : outcome bool * world :=
  let password_hash := md5_hex password in
  match Sql.execute (users w) (select_query username password_hash) with
  | Sql.Done db rows =>
      let user := Sql.fetchone rows in
      (Returns (match user with Some _ => true | None => false end),
       set_users db w)
  | Sql.Failed e => (Raises e, w)
  | Sql.Beyond => (Unmodelled, w)
  end.

Definition lookup_query (user_id : string) : string :=
  ("SELECT * FROM users WHERE id = " ++ user_id)%string.

Definition get_user_data (user_id : pyval) (w : world)
  : outcome (option Sql.row) * world :=
  match format user_id with
  | Returns text =>
      let query := lookup_query text in
      match Sql.execute (users w) query with
      | Sql.Done db rows => (Returns (Sql.fetchone rows), set_users db w)
      | Sql.Failed e => (Raises e, w)
      | Sql.Beyond => (Unmodelled, w)
      end
  | Raises e => (Raises e, w)
  | Unmodelled => (Unmodelled, w)
  end.

Definition unused_function (w : world) : outcome unit * world :=
  (Returns tt, w).

Definition perform (a : Sh.action) (w : world) : option world :=
  match a with
  | Sh.Echo line => Some (print line w)
  | Sh.Spawn argv => spawn argv w
  end.

Fixpoint perform_all (acts : list Sh.action) (w : world) : option world :=
  match acts with
  | [] => Some w
  | a :: acts' =>
      match perform a w with
      | Some w' => perform_all acts' w'
      | None => None
      end
  end.

Definition execute_system_command (user_input : string) (w : world)
  : outcome unit * world :=
  let command := ("echo " ++ user_input)%string in
  match Sh.system command with
  | Some acts =>
      match perform_all acts w with
      | Some w' => (Returns tt, w')
      | None => (Unmodelled, w)
      end
  | None => (Unmodelled, w)
  end.

Definition increment_counter (w : world) : outcome Z * world :=
  let w' := set_global_counter (global_counter w + 1) w in
  (Returns (global_counter w'), w').

(** *** Sequences of calls *)

(** [CreateUserRefused]: a call of [create_user] for which the engine
    refuses the commit with the text [msg]. *)
Inductive call : Type :=
| CreateUser (username password email : string)
| CreateUserRefused (msg : string) (username password email : string)
| Authenticate (username password : string)
| GetUserData (user_id : pyval)
| ExecuteSystemCommand (user_input : string)
| IncrementCounter.

Inductive answer : Type :=
| ABool (r : outcome bool)
| ARow (r : outcome (option Sql.row))
| ANone (r : outcome unit)
| AInt (r : outcome Z).

Definition run_call (c : call) (w : world) : answer * world :=
  match c with
  | CreateUser u p e => let '(r, w') := create_user u p e w in (ABool r, w')
  | CreateUserRefused msg u p e =>
      let '(r, w') := create_user_when (Sql.Refused msg) u p e w in
      (ABool r, w')
  | Authenticate u p => let '(r, w') := authenticate u p w in (ABool r, w')
  | GetUserData i => let '(r, w') := get_user_data i w in (ARow r, w')
  | ExecuteSystemCommand s =>
      let '(r, w') := execute_system_command s w in (ANone r, w')
  | IncrementCounter => let '(r, w') := increment_counter w in (AInt r, w')
  end.

Fixpoint run (cs : list call) (w : world) : list answer * world :=
  match cs with
  | [] => ([], w)
  | c :: cs' =>
      let '(a, w') := run_call c w in
      let '(rest, w'') := run cs' w' in
      (a :: rest, w'')
  end.

(** ** Vocabulary of the properties *)

(** Text that an f-string can place between two quotes of a statement
    without ending the literal or the statement: no quote character and no
    NUL. *)
Definition plain_char (c : ascii) : bool :=
  negb (Ascii.eqb c Sql.quote) && negb (Sql.code c =? 0)%N.

Definition plain (s : string) : bool := all_chars plain_char s.

Definition is_hex (c : ascii) : bool :=
  let n := Sql.code c in
  (((48 <=? n) && (n <=? 57)) || ((97 <=? n) && (n <=? 102)))%N.

(** The stored records with username [u] whose password field is the hash
    of [p]. *)
Definition is_match (u p : string) (r : Sql.row) : bool :=
  String.eqb (Sql.col_username r) u
  && String.eqb (Sql.col_password r) (md5_hex p).

Definition matching (u p : string) (w : world) : list Sql.row :=
  filter (is_match u p) (users w).

(** [after] is [before] followed by the line that the handler of
    [create_user] prints for the exception text [msg]. *)
Definition reports (msg : string) (before after : list string) : Prop :=
  after = before ++ [("Database error: " ++ msg)%string].

(** The storage operation of [create_user] fails with the text [msg]:
    [execute] refuses the statement, or runs it and [commit] is refused. *)
Definition storage_fails (fate : Sql.commit_fate) (u p e : string)
           (w : world) (msg : string) : Prop :=
  Sql.execute (users w) (insert_query u (md5_hex p) e) = Sql.Failed msg
  \/ (exists db rows,
        Sql.execute (users w) (insert_query u (md5_hex p) e) = Sql.Done db rows
        /\ fate = Sql.Refused msg).

(** Two users registered under one username with one password. *)
Definition two_alices : world :=
  snd (create_user "alice" "pw123" "a@x.com"
         (snd (create_user "alice" "pw123" "a@x.com" fresh))).

(** One username registered twice, with two passwords. *)
Definition two_bobs : world :=
  snd (create_user "bob" "first" "b@x.com"
         (snd (create_user "bob" "second" "b@x.com" fresh))).

(** A username that closes the literal and the statement and starts
    another statement. *)
Definition drop_tables : string := "x', 'h', 'e'); DROP TABLE users; --".

(** The readings of the specification that the code does not meet. *)
Definition authenticate_iff_unique (u p : string) (w : world) : Prop :=
  fst (authenticate u p w) = Returns true
  <-> List.length (matching u p w) = 1%nat.

Definition failure_reported_on_stderr (u p e : string) (w : world) : Prop :=
  forall fate msg, storage_fails fate u p e w msg ->
    fst (create_user_when fate u p e w) = Returns false
    /\ reports msg (stderr w) (stderr (snd (create_user_when fate u p e w))).

Definition absent_for_unknown_id (z : Z) (w : world) : Prop :=
  (forall r, In r (users w) -> Sql.col_id r <> z) ->
  get_user_data (PyInt z) w = (Returns None, w).


Definition other_password_rejected (u p q : string) (w : world) : Prop :=
  (exists r, In r (users w) /\ Sql.col_username r = u
             /\ Sql.col_password r = md5_hex p) ->
  q <> p -> fst (authenticate u q w) = Returns false.

(** Two passwords of 72 letters and digits that differ in their 22nd
    character. *)
Definition collide_a : string :=
  "TEXTCOLLBYfGiJUETHQ4hAcKSMd5zYpgqf1YRDhkmxHkhPWptrkoyz28wnI9V0aHeAuaKnak".

Definition collide_b : string :=
  "TEXTCOLLBYfGiJUETHQ4hEcKSMd5zYpgqf1YRDhkmxHkhPWptrkoyz28wnI9V0aHeAuaKnak".

(** The record of the scenario in the specification. *)
Definition alice_row : Sql.row :=
  Sql.Row 1 "alice" "8fc83302c44fcb68b793ceca1d376996" "a@x.com".

(** ** Vocabulary of the further properties *)

Definition no_nul (s : string) : bool := negb (Sql.has_nul s).

Definition no_newline (s : string) : bool :=
  all_chars (fun c => negb (Sql.code c =? 10)%N) s.

(** A text written for a string literal of a statement: every quote is
    doubled. *)
Fixpoint sql_escape (s : string) : string :=
  match s with
  | EmptyString => EmptyString
  | String c s' =>
      if Ascii.eqb c Sql.quote then String c (String c (sql_escape s'))
      else String c (sql_escape s')
  end.

(** The primary key holds: the identifiers are 64-bit integers and no two
    stored records share one. *)
Definition unique_ids (w : world) : Prop :=
  NoDup (map Sql.col_id (users w))
  /\ Forall (fun r => Sql.int64 (Sql.col_id r) = true) (users w).

(** The records that successive insertions add, numbered from [i]. *)
Fixpoint numbered (i : Z) (ts : list (string * string * string))
  : list Sql.row :=
  match ts with
  | [] => []
  | (u, p, e) :: ts' => Sql.Row i u (md5_hex p) e :: numbered (i + 1) ts'
  end.

Definition create_call (t : string * string * string) : call :=
  let '(u, p, e) := t in CreateUser u p e.

Definition plain_triple (t : string * string * string) : bool :=
  let '(u, p, e) := t in plain u && plain e.

Definition is_increment (c : call) : bool :=
  match c with IncrementCounter => true | _ => false end.

Definition is_command (c : call) : bool :=
  match c with ExecuteSystemCommand _ => true | _ => false end.

(** The block under [if __name__ == "__main__"] from the call of
    [create_user] on; [username] and [password] are the two lines that
    [input()] has read. *)
Definition main_body (username password : string) (w : world)
  : outcome unit * world :=
  match create_user username password "user@example.com" w with
  | (Returns _, w1) =>
      match authenticate username password w1 with
      | (Returns true, w2) =>
          (Returns tt, print "Authentication successful!" w2)
      | (Returns false, w2) => (Returns tt, print "Authentication failed!" w2)
      | (Raises e, w2) => (Raises e, w2)
      | (Unmodelled, w2) => (Unmodelled, w2)
      end
  | (Raises e, w1) => (Raises e, w1)
  | (Unmodelled, w1) => (Unmodelled, w1)
  end.

(** Input of the command runner that holds words only, the first of which
    is not an option of [echo]. *)
Definition only_words (user_input : string) : bool :=
  all_chars (fun c => Sh.is_plain c || Sh.is_blank c) user_input
  && match Sh.words user_input with
     | a :: _ => negb (Sh.starts_with_dash a)
     | [] => true
     end.

(** The model says how the call ended. *)
Definition settled (a : answer) : bool :=
  match a with
  | ABool Unmodelled | ARow Unmodelled | ANone Unmodelled | AInt Unmodelled =>
      false
  | _ => true
  end.

(** Text written like the hexadecimal form of a digest: 32 digits among
    [0-9a-f]. *)
Definition digest_shaped (s : string) : bool :=
  (String.length s =? 32)%nat && all_chars is_hex s.
Example md5_empty : md5_hex "" = "d41d8cd98f00b204e9800998ecf8427e".
Proof. vm_compute. reflexivity. Qed.

Example md5_abc : md5_hex "abc" = "900150983cd24fb0d6963f7d28e17f72".
Proof. vm_compute. reflexivity. Qed.

Example md5_pw123 : md5_hex "pw123" = "8fc83302c44fcb68b793ceca1d376996".
Proof. vm_compute. reflexivity. Qed.

Example md5_two_blocks :
  md5_hex "aaaaaaaaaaaaaaaaaaaaaaaaaaaaaaaaaaaaaaaaaaaaaaaaaaaaaaaaaaaaaaaa"
  = "014842d480b571495a4a0363793f7367".
Proof. vm_compute. reflexivity. Qed.

Example md5_latin1 :
  md5_hex (String (ascii_of_nat 233) "") = "66ddcd97cfdeabb2f6fb8a999b4bc76f".
Proof. vm_compute. reflexivity. Qed.

(** ** The scenario of the specification, and three injections *)

Example scenario_create :
  create_user "alice" "pw123" "a@x.com" fresh
  = (Returns true, set_users [alice_row] fresh).
Proof. vm_compute. reflexivity. Qed.

Example scenario_authenticate :
  fst (authenticate "alice" "pw123" (set_users [alice_row] fresh))
  = Returns true
  /\ fst (authenticate "alice" "pw124" (set_users [alice_row] fresh))
     = Returns false.
Proof. split; vm_compute; reflexivity. Qed.

Example scenario_get_user_data :
  fst (get_user_data (PyInt 1) (set_users [alice_row] fresh))
  = Returns (Some alice_row).
Proof. vm_compute. reflexivity. Qed.

(** A comment in the username removes the password test. *)
Example comment_skips_password :
  fst (authenticate "alice' --" "not the password"
         (set_users [alice_row] fresh))
  = Returns true.
Proof. vm_compute. reflexivity. Qed.

(** A username that closes its literal chooses the other two fields. *)
Example injected_fields_stored :
  create_user "bob', 'hunter2', 'm') --" "hunter2" "b@x.com" fresh
  = (Returns true, set_users [Sql.Row 1 "bob" "hunter2" "m"] fresh).
Proof. vm_compute. reflexivity. Qed.

(** A condition in place of an identifier. *)
Example injected_condition :
  fst (get_user_data (PyStr "1 AND username = 'alice'")
         (set_users [alice_row] fresh))
  = Returns (Some alice_row).
Proof. vm_compute. reflexivity. Qed.

(** * Properties *)

(** Facts about one character are settled by running through the 256 of
    them. *)
Ltac by_char c :=
  destruct c as [[|] [|] [|] [|] [|] [|] [|] [|]]; vm_compute; congruence.

(** ** Strings *)

Lemma append_nil_r (s : string) : (s ++ "")%string = s.
Proof. induction s as [|c s IH]; simpl; [reflexivity | now rewrite IH]. Qed.

Lemma append_assoc (a b c : string) :
  ((a ++ b) ++ c)%string = (a ++ (b ++ c))%string.
Proof. induction a as [|x a IH]; simpl; [reflexivity | now rewrite IH]. Qed.

Lemma all_chars_app (p : ascii -> bool) (a b : string) :
  all_chars p (a ++ b)%string = all_chars p a && all_chars p b.
Proof.
  induction a as [|x a IH]; simpl; [reflexivity|].
  now rewrite IH, andb_assoc.
Qed.

Lemma all_chars_impl (p q : ascii -> bool) (s : string) :
  (forall c, p c = true -> q c = true) ->
  all_chars p s = true -> all_chars q s = true.
Proof.
  intros Hpq. induction s as [|c s IH]; simpl; [reflexivity|].
  intros [Hc Hs]%andb_true_iff. now rewrite (Hpq c Hc), IH.
Qed.

Lemma has_nul_app (a b : string) :
  Sql.has_nul (a ++ b)%string = Sql.has_nul a || Sql.has_nul b.
Proof.
  induction a as [|x a IH]; simpl; [reflexivity|].
  now rewrite IH, orb_assoc.
Qed.

Lemma plain_no_nul (s : string) : plain s = true -> Sql.has_nul s = false.
Proof.
  induction s as [|c s IH]; simpl; [reflexivity|].
  intros [Hc Hs]%andb_true_iff.
  apply andb_true_iff in Hc as [_ Hc]. apply negb_true_iff in Hc.
  now rewrite Hc, IH.
Qed.

(** ** The digest is plain text *)

Lemma hex_digit_is_hex (n : Z) : is_hex (hex_digit n) = true.
Proof.
  unfold hex_digit.
  assert (H : (0 <= n mod 16 < 16)%Z) by (apply Z.mod_pos_bound; lia).
  remember (n mod 16)%Z as k eqn:Hk. clear Hk.
  assert (Hc : (k = 0 \/ k = 1 \/ k = 2 \/ k = 3 \/ k = 4 \/ k = 5 \/ k = 6
                \/ k = 7 \/ k = 8 \/ k = 9 \/ k = 10 \/ k = 11 \/ k = 12
                \/ k = 13 \/ k = 14 \/ k = 15)%Z) by lia.
  repeat (destruct Hc as [-> | Hc]; [reflexivity|]).
  subst k. reflexivity.
Qed.

Lemma hexdigest_is_hex (bs : list Z) : all_chars is_hex (hexdigest bs) = true.
Proof.
  induction bs as [|b bs IH]; simpl; [reflexivity|].
  now rewrite !hex_digit_is_hex, IH.
Qed.

Lemma is_hex_plain (c : ascii) : is_hex c = true -> plain_char c = true.
Proof. by_char c. Qed.

Lemma md5_hex_plain (p : string) : plain (md5_hex p) = true.
Proof.
  apply (all_chars_impl is_hex); [exact is_hex_plain|].
  apply hexdigest_is_hex.
Qed.

(** ** The tokenizer on the statements the methods build *)

Lemma lex_literal (u acc rest : string) :
  plain u = true ->
  Sql.lex (Sql.InStr acc) (u ++ rest)%string
  = Sql.lex (Sql.InStr (acc ++ u)%string) rest.
Proof.
  revert acc. induction u as [|c u IH]; intros acc Hu; simpl.
  - now rewrite append_nil_r.
  - simpl in Hu. apply andb_true_iff in Hu as [Hc Hu].
    apply andb_true_iff in Hc as [Hq _]. apply negb_true_iff in Hq.
    rewrite Hq. simpl. rewrite IH by assumption.
    unfold Sql.snoc. now rewrite append_assoc.
Qed.

Lemma tokens_select_query (u h : string) :
  plain u = true -> plain h = true ->
  Sql.tokens (select_query u h)
  = Sql.select_head
      ++ [Sql.TWord "username"; Sql.TEq; Sql.TStr u; Sql.TWord "AND";
          Sql.TWord "password"; Sql.TEq; Sql.TStr h].
Proof.
  intros Hu Hh. unfold Sql.tokens, select_query. simpl.
  rewrite lex_literal by assumption. simpl.
  rewrite lex_literal by assumption. reflexivity.
Qed.

Lemma tokens_insert_query (u h e : string) :
  plain u = true -> plain h = true -> plain e = true ->
  Sql.tokens (insert_query u h e)
  = Sql.insert_head
      ++ [Sql.TLParen; Sql.TStr u; Sql.TComma; Sql.TStr h; Sql.TComma;
          Sql.TStr e; Sql.TRParen].
Proof.
  intros Hu Hh He. unfold Sql.tokens, insert_query. simpl.
  rewrite lex_literal by assumption. simpl.
  rewrite lex_literal by assumption. simpl.
  rewrite lex_literal by assumption. reflexivity.
Qed.

Lemma select_query_no_nul (u h : string) :
  plain u = true -> plain h = true -> Sql.has_nul (select_query u h) = false.
Proof.
  intros Hu Hh. unfold select_query.
  rewrite !has_nul_app, (plain_no_nul u Hu), (plain_no_nul h Hh).
  reflexivity.
Qed.

Lemma insert_query_no_nul (u h e : string) :
  plain u = true -> plain h = true -> plain e = true ->
  Sql.has_nul (insert_query u h e) = false.
Proof.
  intros Hu Hh He. unfold insert_query.
  rewrite !has_nul_app, (plain_no_nul u Hu), (plain_no_nul h Hh),
    (plain_no_nul e He).
  reflexivity.
Qed.

Lemma set_users_same (w : world) : set_users (users w) w = w.
Proof. destruct w; reflexivity. Qed.

(** What [execute] does with the statement of [authenticate] when the
    username is plain text. *)
Lemma execute_select_query (db : Sql.table) (u h : string) :
  plain u = true -> plain h = true ->
  Sql.execute db (select_query u h)
  = Sql.Done db
      (filter (fun r => String.eqb (Sql.col_username r) u
                        && String.eqb (Sql.col_password r) h) db).
Proof.
  intros Hu Hh. unfold Sql.execute.
  rewrite select_query_no_nul, tokens_select_query by assumption.
  cbn. f_equal. apply filter_ext. intros r.
  unfold Sql.satisfies, Sql.holds. cbn.
  now rewrite andb_true_r.
Qed.

Lemma authenticate_plain (u p : string) (w : world) :
  plain u = true ->
  authenticate u p w
  = (Returns (match matching u p w with [] => false | _ :: _ => true end), w).
Proof.
  intros Hu. unfold authenticate.
  rewrite execute_select_query by (assumption || apply md5_hex_plain).
  rewrite set_users_same. unfold matching, Sql.fetchone.
  replace (filter _ (users w)) with (filter (is_match u p) (users w))
    by reflexivity.
  now destruct (filter (is_match u p) (users w)).
Qed.

(** ** authenticate *)

Lemma matching_spec (u p : string) (w : world) (r : Sql.row) :
  In r (matching u p w)
  <-> In r (users w) /\ Sql.col_username r = u
      /\ Sql.col_password r = md5_hex p.
Proof.
  unfold matching, is_match. rewrite filter_In, andb_true_iff.
  now rewrite !String.eqb_eq.
Qed.

(** C1, as stated, fails: with two stored records for (alice, pw123), which
    two calls of [create_user] produce, [authenticate] still returns
    true. *)
Lemma authenticate_two_matches :
  ~ authenticate_iff_unique "alice" "pw123" two_alices.
Proof.
  unfold authenticate_iff_unique. intros [H _].
  assert (Hret : fst (authenticate "alice" "pw123" two_alices) = Returns true)
    by (vm_compute; reflexivity).
  specialize (H Hret). vm_compute in H. discriminate H.
Qed.

(** C1, amended: for a username that is plain text, [authenticate] returns,
    leaves the state as it is, and returns true if and only if at least one
    stored record has that username and the hash of the password in its
    password field. *)
Theorem authenticate_iff_some (u p : string) (w : world) :
  plain u = true ->
  exists b, authenticate u p w = (Returns b, w)
    /\ (b = true <->
        exists r, In r (users w) /\ Sql.col_username r = u
                  /\ Sql.col_password r = md5_hex p).
Proof.
  intros Hu. rewrite (authenticate_plain u p w Hu).
  eexists. split; [reflexivity|].
  destruct (matching u p w) as [|r rs] eqn:Hm.
  - split; [discriminate|].
    intros [r Hr]. apply matching_spec in Hr. rewrite Hm in Hr. destruct Hr.
  - split; [intros _ | reflexivity].
    exists r. apply matching_spec. rewrite Hm. now left.
Qed.

Lemma authenticate_iff_some_witness :
  exists b, authenticate "alice" "pw123" two_alices = (Returns b, two_alices)
    /\ (b = true <->
        exists r, In r (users two_alices) /\ Sql.col_username r = "alice"
                  /\ Sql.col_password r = md5_hex "pw123").
Proof. apply (authenticate_iff_some "alice" "pw123" two_alices). reflexivity. Defined.

(** ** create_user: failures of the storage operation *)

Lemma create_user_as_when (u p e : string) (w : world) :
  create_user u p e w = create_user_when Sql.Committed u p e w.
Proof. reflexivity. Qed.

(** C2, as stated, fails: the statement built from [drop_tables] is
    refused, and nothing is written to standard error. *)
Lemma failure_not_on_stderr :
  ~ failure_reported_on_stderr drop_tables "pw123" "a@x.com" fresh.
Proof.
  intros H.
  destruct (H Sql.Committed Sql.one_statement) as [_ Hrep].
  - left. vm_compute. reflexivity.
  - unfold reports in Hrep. vm_compute in Hrep. discriminate Hrep.
Qed.

(** C2, amended: whenever the storage operation of [create_user] fails,
    be it [execute] or [commit], the exception is caught, [create_user]
    returns false, the line made of Database error: and the raw exception
    text is written to standard output, and standard error stays as it
    is. *)
Theorem failure_reported_on_stdout
        (fate : Sql.commit_fate) (u p e : string) (w : world) (msg : string) :
  storage_fails fate u p e w msg ->
  fst (create_user_when fate u p e w) = Returns false
  /\ stdout (snd (create_user_when fate u p e w))
     = stdout w ++ [("Database error: " ++ msg)%string]
  /\ stderr (snd (create_user_when fate u p e w)) = stderr w.
Proof.
  unfold storage_fails, create_user_when.
  intros [-> | (db & rows & -> & ->)]; cbn; repeat split.
Qed.

Lemma failure_reported_on_stdout_witness :
  (fst (create_user_when Sql.Committed "O'Brien" "pw123" "ob@x.com" fresh)
   = Returns false
   /\ stdout (snd (create_user_when Sql.Committed "O'Brien" "pw123" "ob@x.com"
                    fresh))
      = stdout fresh
        ++ [("Database error: " ++ Sql.syntax_error "Brien")%string]
   /\ stderr (snd (create_user_when Sql.Committed "O'Brien" "pw123" "ob@x.com"
                    fresh))
      = stderr fresh)
  /\ (fst (create_user_when (Sql.Refused "database is locked")
             "alice" "pw123" "a@x.com" fresh)
      = Returns false
      /\ stdout (snd (create_user_when (Sql.Refused "database is locked")
                       "alice" "pw123" "a@x.com" fresh))
         = stdout fresh ++ ["Database error: database is locked"]
      /\ stderr (snd (create_user_when (Sql.Refused "database is locked")
                       "alice" "pw123" "a@x.com" fresh))
         = stderr fresh).
Proof.
  split.
  - apply (failure_reported_on_stdout Sql.Committed "O'Brien" "pw123"
             "ob@x.com" fresh (Sql.syntax_error "Brien")).
    left. vm_compute. reflexivity.
  - apply (failure_reported_on_stdout (Sql.Refused "database is locked")
             "alice" "pw123" "a@x.com" fresh "database is locked").
    right. eexists. eexists. split; vm_compute; reflexivity.
Defined.

(** ** Rows and rowids *)

Lemma largest_rowid_bound (db : Sql.table) (m : Z) :
  Sql.largest_rowid db = Some m ->
  forall r, In r db -> (Sql.col_id r <= m)%Z.
Proof.
  revert m. induction db as [|x db IH]; intros m Hm r Hr; [destruct Hr|].
  simpl in Hm. destruct (Sql.largest_rowid db) as [m'|] eqn:Hdb.
  - injection Hm as <-. destruct Hr as [-> | Hr]; [lia|].
    specialize (IH m' eq_refl r Hr). lia.
  - injection Hm as <-. destruct Hr as [-> | Hr]; [lia|].
    destruct db; [destruct Hr | simpl in Hdb].
    destruct (Sql.largest_rowid db); discriminate.
Qed.

Lemma next_rowid_unused (db : Sql.table) (i : Z) :
  Sql.next_rowid db = Some i ->
  forall r, In r db -> (Sql.col_id r < i)%Z.
Proof.
  unfold Sql.next_rowid. intros Hi r Hr.
  destruct (Sql.largest_rowid db) as [m|] eqn:Hm.
  - destruct (m <? Sql.max_rowid)%Z; [|discriminate].
    injection Hi as <-. pose proof (largest_rowid_bound db m Hm r Hr). lia.
  - destruct db; [destruct Hr | simpl in Hm].
    destruct (Sql.largest_rowid db); discriminate.
Qed.

(** What [execute] does with the statement of [create_user] when the
    three interpolated texts are plain. *)
Lemma execute_insert_query (db : Sql.table) (u h e : string) (i : Z) :
  plain u = true -> plain h = true -> plain e = true ->
  Sql.next_rowid db = Some i ->
  Sql.execute db (insert_query u h e) = Sql.Done (db ++ [Sql.Row i u h e]) [].
Proof.
  intros Hu Hh He Hi. unfold Sql.execute.
  rewrite insert_query_no_nul, tokens_insert_query by assumption.
  cbn. now rewrite Hi.
Qed.

Lemma create_user_plain (u p e : string) (w : world) (i : Z) :
  plain u = true -> plain e = true ->
  Sql.next_rowid (users w) = Some i ->
  create_user u p e w
  = (Returns true, set_users (users w ++ [Sql.Row i u (md5_hex p) e]) w).
Proof.
  intros Hu He Hi. unfold create_user, create_user_when.
  rewrite (execute_insert_query _ u (md5_hex p) e i)
    by (assumption || apply md5_hex_plain).
  reflexivity.
Qed.

(** ** Integers in statements *)

Lemma digits_are_digits (d : Decimal.uint) :
  all_chars Sql.is_digit (NilEmpty.string_of_uint d) = true.
Proof. induction d; simpl; try reflexivity; exact IHd. Qed.

Lemma lex_digits (ds acc : string) :
  all_chars Sql.is_digit ds = true ->
  Sql.lex (Sql.InInt acc) ds = [Sql.TInt (acc ++ ds)%string].
Proof.
  revert acc. induction ds as [|c ds IH]; intros acc Hds; simpl.
  - now rewrite append_nil_r.
  - simpl in Hds. apply andb_true_iff in Hds as [Hc Hds].
    rewrite Hc. simpl. rewrite IH by assumption.
    unfold Sql.snoc. now rewrite append_assoc.
Qed.

Lemma lex_number (ds : string) :
  ds <> EmptyString -> all_chars Sql.is_digit ds = true ->
  Sql.lex Sql.Normal ds = [Sql.TInt ds]
  /\ Sql.lex Sql.Minus ds = [Sql.TMinus; Sql.TInt ds].
Proof.
  destruct ds as [|c ds]; [congruence|]. intros _ Hds.
  simpl in Hds. apply andb_true_iff in Hds as [Hc Hds].
  assert (Hn : Sql.step_normal c
               = ([], Some (Sql.InInt (String c EmptyString)))).
  { unfold Sql.step_normal. rewrite Hc.
    destruct (Sql.is_space c) eqn:Hs.
    - exfalso. revert Hc Hs. clear.
      by_char c.
    - destruct (Sql.is_alpha c) eqn:Ha; [|reflexivity].
      exfalso. revert Hc Ha. clear.
      by_char c. }
  split.
  - simpl. rewrite Hn. simpl. now rewrite lex_digits.
  - simpl. unfold Sql.after. rewrite Hn.
    assert (Hm : Ascii.eqb c "-" = false).
    { revert Hc. clear.
      by_char c. }
    rewrite Hm. simpl. now rewrite lex_digits.
Qed.

Lemma digits_no_nul (s : string) :
  all_chars Sql.is_digit s = true -> Sql.has_nul s = false.
Proof.
  induction s as [|c s IH]; simpl; [reflexivity|].
  intros [Hc Hs]%andb_true_iff. rewrite (IH Hs), orb_false_r.
  revert Hc. clear.
  by_char c.
Qed.

Lemma number_of_digits (d : Decimal.uint) :
  Sql.number_of (NilEmpty.string_of_uint d) = Some (Z.of_N (N.of_uint d)).
Proof. unfold Sql.number_of. now rewrite NilEmpty.usu. Qed.

Lemma nonnil_digits (d : Decimal.uint) :
  d <> Decimal.Nil ->
  NilZero.string_of_uint d = NilEmpty.string_of_uint d
  /\ NilEmpty.string_of_uint d <> EmptyString.
Proof. destruct d; simpl; intros H; split; congruence. Qed.

(** The decimal text of an integer, as the tokenizer and the parser of
    operands read it back. *)
Lemma decimal_tokens (z : Z) :
  exists ts,
    Sql.lex Sql.Normal (decimal z) = ts
    /\ Sql.has_nul (decimal z) = false
    /\ Sql.parse_operand ts = Some (Sql.ONum z, []).
Proof.
  unfold decimal. destruct z as [|q|q]; simpl.
  - eexists. repeat split.
  - destruct (nonnil_digits _ (DecimalPos.Unsigned.to_uint_nonnil q))
      as [-> Hne].
    destruct (lex_number _ Hne (digits_are_digits _)) as [Hl _].
    eexists. split; [exact Hl|]. split.
    + apply digits_no_nul, digits_are_digits.
    + simpl. rewrite number_of_digits.
      unfold N.of_uint. now rewrite DecimalPos.Unsigned.of_to.
  - destruct (nonnil_digits _ (DecimalPos.Unsigned.to_uint_nonnil q))
      as [-> Hne].
    destruct (lex_number _ Hne (digits_are_digits _)) as [_ Hl].
    eexists. split; [exact Hl|]. split.
    + apply digits_no_nul, digits_are_digits.
    + simpl. rewrite number_of_digits.
      unfold N.of_uint. now rewrite DecimalPos.Unsigned.of_to.
Qed.

(** ** get_user_data *)

Lemma execute_lookup_int (db : Sql.table) (z : Z) :
  Sql.execute db (lookup_query (decimal z))
  = Sql.Done db (filter (fun r => (Sql.col_id r =? z)%Z) db).
Proof.
  destruct (decimal_tokens z) as (ts & Hlex & Hnul & Hop).
  unfold Sql.execute, lookup_query.
  rewrite has_nul_app, Hnul. cbn [Sql.has_nul orb].
  change (Sql.has_nul "SELECT * FROM users WHERE id = ") with false.
  cbn [orb].
  unfold Sql.tokens.
  change (Sql.lex Sql.Normal ("SELECT * FROM users WHERE id = " ++ decimal z))
    with (Sql.select_head
            ++ [Sql.TWord "id"; Sql.TEq] ++ Sql.lex Sql.Normal (decimal z)).
  rewrite Hlex.
  change (Sql.run db (Sql.select_head ++ [Sql.TWord "id"; Sql.TEq] ++ ts))
    with (Sql.run_select db (Sql.TWord "id" :: Sql.TEq :: ts)).
  unfold Sql.run_select, Sql.parse_condition, Sql.parse_comparison.
  change (Sql.parse_operand (Sql.TWord "id" :: Sql.TEq :: ts))
    with (Some (Sql.OCol Sql.CId, Sql.TEq :: ts)).
  cbv iota beta. rewrite Hop. cbn.
  f_equal. apply filter_ext. intros r.
  unfold Sql.satisfies, Sql.holds. cbn.
  now rewrite andb_true_r.
Qed.

Lemma get_user_data_int (z : Z) (w : world) :
  too_long z = false ->
  get_user_data (PyInt z) w
  = (Returns (Sql.fetchone (filter (fun r => (Sql.col_id r =? z)%Z) (users w))),
     w).
Proof.
  intros Hz. unfold get_user_data, format, str_int. rewrite Hz.
  rewrite execute_lookup_int. now rewrite set_users_same.
Qed.

Lemma get_user_data_too_long (z : Z) (w : world) :
  too_long z = true -> get_user_data (PyInt z) w = (Raises digit_limit, w).
Proof.
  intros Hz. unfold get_user_data, format, str_int. now rewrite Hz.
Qed.

Lemma int64_not_too_long (z : Z) : Sql.int64 z = true -> too_long z = false.
Proof.
  unfold Sql.int64, too_long, Sql.max_rowid.
  intros [Hlo Hhi]%andb_true_iff.
  apply Z.leb_le in Hlo. apply Z.leb_le in Hhi. apply Z.leb_gt.
  apply Z.lt_le_trans with (10 ^ 19)%Z.
  - change (10 ^ 19)%Z with 10000000000000000000%Z. lia.
  - apply Z.pow_le_mono_r; unfold max_str_digits; lia.
Qed.

Lemma filter_none {A : Type} (f : A -> bool) (l : list A) :
  (forall x, In x l -> f x = false) -> filter f l = [].
Proof.
  induction l as [|x l IH]; intros H; simpl; [reflexivity|].
  rewrite (H x (or_introl eq_refl)). apply IH. intros y Hy. apply H. now right.
Qed.

(** C6, as stated, fails: on an empty table the integer 10^4300, of 4301
    digits, is the identifier of no record, and [get_user_data] raises
    while it formats the statement. *)
Lemma long_identifier_raises : ~ absent_for_unknown_id (10 ^ 4300) fresh.
Proof.
  intros H.
  assert (Hno : forall r, In r (users fresh) -> Sql.col_id r <> (10 ^ 4300)%Z)
    by (intros r []).
  specialize (H Hno).
  rewrite get_user_data_too_long in H by (vm_compute; reflexivity).
  discriminate H.
Qed.

(** C6, amended: for an integer identifier of at most 4300 digits that no
    stored record carries, [get_user_data] returns the absent value; it
    does not raise, and leaves the state as it is. *)
Theorem get_user_data_absent (z : Z) (w : world) :
  too_long z = false ->
  (forall r, In r (users w) -> Sql.col_id r <> z) ->
  get_user_data (PyInt z) w = (Returns None, w).
Proof.
  intros Hlen Hz. rewrite get_user_data_int by assumption.
  rewrite filter_none; [reflexivity|].
  intros r Hr. apply Z.eqb_neq. now apply Hz.
Qed.

Lemma get_user_data_absent_witness :
  get_user_data (PyInt (-7)) two_alices = (Returns None, two_alices).
Proof.
  apply (get_user_data_absent (-7) two_alices).
  - vm_compute. reflexivity.
  - intros r Hr. vm_compute in Hr.
    destruct Hr as [<- | [<- | []]]; discriminate.
Defined.

(** ** create_user then get_user_data *)

(** C3 at two usernames with a quote.  With O'Brien the statement is
    refused: [create_user] prints the syntax error and returns false, and
    no record is stored, so the identifier 1 is absent.  With a username
    that closes its literal, [create_user] returns true and the record
    stored under the identifier 1 has another username and email than the
    inputs, and the password itself in its credential field. *)
Theorem quoted_names_not_stored :
  create_user "O'Brien" "pw123" "ob@x.com" fresh
  = (Returns false,
     print ("Database error: " ++ Sql.syntax_error "Brien")%string fresh)
  /\ get_user_data (PyInt 1)
       (snd (create_user "O'Brien" "pw123" "ob@x.com" fresh))
     = (Returns None, snd (create_user "O'Brien" "pw123" "ob@x.com" fresh))
  /\ create_user "bob', 'hunter2', 'm') --" "hunter2" "b@x.com" fresh
     = (Returns true, set_users [Sql.Row 1 "bob" "hunter2" "m"] fresh)
  /\ get_user_data (PyInt 1)
       (snd (create_user "bob', 'hunter2', 'm') --" "hunter2" "b@x.com" fresh))
     = (Returns (Some (Sql.Row 1 "bob" "hunter2" "m")),
        snd (create_user "bob', 'hunter2', 'm') --" "hunter2" "b@x.com" fresh)).
Proof. repeat split; vm_compute; reflexivity. Qed.

(** ** authenticate with another password *)

(** C4, as stated, fails: usernames are not unique, so a user created with
    one password does not stop a second record of the same username, and
    that record's password authenticates. *)
Lemma other_password_accepted :
  ~ other_password_rejected "bob" "first" "second" two_bobs.
Proof.
  unfold other_password_rejected. intros H.
  assert (Hex : exists r, In r (users two_bobs) /\ Sql.col_username r = "bob"
                          /\ Sql.col_password r = md5_hex "first").
  { exists (Sql.Row 2 "bob" (md5_hex "first") "b@x.com").
    vm_compute. repeat split. right. left. reflexivity. }
  assert (Hne : "second" <> "first") by discriminate.
  specialize (H Hex Hne). vm_compute in H. discriminate H.
Qed.

(** C4, amended: when every stored record of a plain username carries the
    digest of [p], a password whose digest differs from that of [p] makes
    [authenticate] return false. *)
Theorem other_digest_rejected (u p q : string) (w : world) :
  plain u = true ->
  (forall r, In r (users w) -> Sql.col_username r = u ->
             Sql.col_password r = md5_hex p) ->
  md5_hex q <> md5_hex p ->
  authenticate u q w = (Returns false, w).
Proof.
  intros Hu Hall Hd. rewrite (authenticate_plain u q w Hu).
  destruct (matching u q w) as [|r rs] eqn:Hm; [reflexivity|].
  exfalso. assert (Hr : In r (matching u q w)) by (rewrite Hm; now left).
  apply matching_spec in Hr as (Hin & Hname & Hpw).
  apply Hd. rewrite <- Hpw. now apply Hall.
Qed.

Lemma other_digest_rejected_witness :
  authenticate "alice" "pw124" two_alices = (Returns false, two_alices).
Proof.
  apply (other_digest_rejected "alice" "pw123" "pw124" two_alices).
  - reflexivity.
  - intros r Hr Hname. vm_compute in Hr.
    destruct Hr as [<- | [<- | []]]; vm_compute; reflexivity.
  - vm_compute. discriminate.
Defined.

(** The digests of two different passwords can agree, and then the second
    password authenticates a user created with the first. *)
Lemma md5_collision : collide_a <> collide_b /\ md5_hex collide_a = md5_hex collide_b.
Proof. split; [discriminate | vm_compute; reflexivity]. Qed.

Lemma colliding_password_accepted :
  fst (authenticate "carol" collide_b
         (snd (create_user "carol" collide_a "c@x.com" fresh)))
  = Returns true.
Proof. vm_compute. reflexivity. Qed.

(** ** The command runner *)

(** C5 at an input with a shell metacharacter: the shell echoes the first
    word and then starts the program named after the semicolon, which
    prints its own line. *)
Theorem command_runner_starts_program :
  execute_system_command "hello; /usr/bin/id" fresh
  = (Returns tt,
     World (SECRET_KEY fresh) 0 []
           ["hello"; "uid=0(root) gid=0(root) groups=0(root)"] []
           [["/usr/bin/id"]] (programs fresh)).
Proof. vm_compute. reflexivity. Qed.

(** The storage half of C5 at [drop_tables]: the second statement is never
    run and the table keeps its rows. *)
Lemma drop_tables_refused :
  create_user drop_tables "pw123" "a@x.com" two_alices
  = (Returns false,
     print ("Database error: " ++ Sql.one_statement)%string two_alices).
Proof. vm_compute. reflexivity. Qed.

(** ** The counter *)

Lemma run_increments (n : nat) (w : world) :
  fst (run (repeat IncrementCounter n) w)
  = map (fun k => AInt (Returns (global_counter w + Z.of_nat k)%Z)) (seq 1 n)
  /\ global_counter (snd (run (repeat IncrementCounter n) w))
     = (global_counter w + Z.of_nat n)%Z.
Proof.
  revert w. induction n as [|n IH]; intros w.
  - cbn. split; [reflexivity | lia].
  - cbn [repeat run run_call increment_counter].
    destruct (run (repeat IncrementCounter n)
                (set_global_counter (global_counter w + 1) w))
      as [rest w'] eqn:Hrun.
    destruct (IH (set_global_counter (global_counter w + 1) w)) as [Ha Hc].
    rewrite Hrun in Ha, Hc. cbn [fst snd] in *. split.
    + cbn [seq map]. f_equal.
      rewrite Ha, <- (seq_shift n 1), map_map. apply map_ext. intros k.
      do 2 f_equal. cbn. lia.
    + rewrite Hc. cbn. lia.
Qed.

(** C9: a call of [increment_counter] adds one to the counter and returns
    the new value; the counter starts at zero, and the answers to [n] calls
    in a row are 1, 2, ..., [n]. *)
Theorem increment_counter_counts :
  (forall w, increment_counter w
             = (Returns (global_counter w + 1)%Z,
                set_global_counter (global_counter w + 1) w))
  /\ global_counter fresh = 0%Z
  /\ (forall n, fst (run (repeat IncrementCounter n) fresh)
                = map (fun k => AInt (Returns (Z.of_nat k))) (seq 1 n))
  /\ (forall n, global_counter (snd (run (repeat IncrementCounter n) fresh))
                = Z.of_nat n).
Proof.
  split; [reflexivity|]. split; [reflexivity|]. split; intros n.
  - now rewrite (proj1 (run_increments n fresh)).
  - now rewrite (proj2 (run_increments n fresh)).
Qed.

(** ** What a statement can do to the table *)

Lemma insert_rows_grows (vs : list (string * string * string))
      (db db' : Sql.table) :
  Sql.insert_rows db vs = Some db' -> exists added, db' = db ++ added.
Proof.
  revert db. induction vs as [|[[u p] e] vs IH]; intros db H; simpl in H.
  - injection H as <-. exists []. now rewrite app_nil_r.
  - destruct (Sql.next_rowid db) as [i|]; [|discriminate].
    destruct (IH _ H) as [added ->].
    exists (Sql.Row i u p e :: added). now rewrite <- app_assoc.
Qed.

Lemma run_insert_grows (db db' : Sql.table) (ts : list Sql.token)
      (rows : list Sql.row) :
  Sql.run_insert db ts = Sql.Done db' rows -> exists added, db' = db ++ added.
Proof.
  unfold Sql.run_insert.
  destruct (Sql.values_rows ts) as [vs rest | word | ]; try discriminate.
  destruct (Sql.statement_end rest); try discriminate.
  destruct (Sql.insert_rows db vs) as [db''|] eqn:Hins; [|discriminate].
  intros [= <- _]. now apply insert_rows_grows in Hins.
Qed.

Lemma run_select_same (db db' : Sql.table) (ts : list Sql.token)
      (rows : list Sql.row) :
  Sql.run_select db ts = Sql.Done db' rows -> db' = db.
Proof.
  unfold Sql.run_select.
  destruct (Sql.parse_condition ts) as [[cond rest]|]; [|discriminate].
  destruct (Sql.statement_end rest); try discriminate.
  destruct (forallb _ cond); [|discriminate].
  now intros [= <- _].
Qed.

Lemma execute_grows (db db' : Sql.table) (sql : string) (rows : list Sql.row) :
  Sql.execute db sql = Sql.Done db' rows -> exists added, db' = db ++ added.
Proof.
  unfold Sql.execute, Sql.run.
  destruct (Sql.has_nul sql); [discriminate|].
  destruct (Sql.strip Sql.insert_head (Sql.tokens sql)) as [rest|].
  - apply run_insert_grows.
  - destruct (Sql.strip Sql.select_head (Sql.tokens sql)) as [rest|];
      [|discriminate].
    intros H. apply run_select_same in H as ->.
    exists []. now rewrite app_nil_r.
Qed.

Lemma execute_select_same (db db' : Sql.table) (sql : string)
      (rest : list Sql.token) (rows : list Sql.row) :
  Sql.tokens sql = Sql.select_head ++ rest ->
  Sql.execute db sql = Sql.Done db' rows -> db' = db.
Proof.
  unfold Sql.execute. intros ->.
  destruct (Sql.has_nul sql); [discriminate|].
  change (Sql.run db (Sql.select_head ++ rest)) with (Sql.run_select db rest).
  apply run_select_same.
Qed.

Lemma select_query_head (u h : string) :
  exists rest, Sql.tokens (select_query u h) = Sql.select_head ++ rest.
Proof. eexists. unfold Sql.tokens, select_query. simpl. reflexivity. Qed.

Lemma lookup_query_head (text : string) :
  exists rest, Sql.tokens (lookup_query text) = Sql.select_head ++ rest.
Proof. eexists. unfold Sql.tokens, lookup_query. simpl. reflexivity. Qed.

(** C7: [authenticate] and [get_user_data] leave the stored table as it is,
    and [create_user] only appends: the table after the call is the table
    before it followed by the added records. *)
Theorem records_never_changed (w : world) :
  (forall u p, users (snd (authenticate u p w)) = users w)
  /\ (forall v, users (snd (get_user_data v w)) = users w)
  /\ (forall u p e, exists added,
        users (snd (create_user u p e w)) = users w ++ added).
Proof.
  split; [|split].
  - intros u p. unfold authenticate.
    destruct (select_query_head u (md5_hex p)) as [rest Hrest].
    destruct (Sql.execute (users w) (select_query u (md5_hex p)))
      as [db rows| |] eqn:Hex; try reflexivity.
    now apply (execute_select_same _ _ _ _ _ Hrest) in Hex as ->.
  - intros v. unfold get_user_data.
    destruct (format v) as [text | msg | ]; try reflexivity.
    destruct (lookup_query_head text) as [rest Hrest].
    destruct (Sql.execute (users w) (lookup_query text))
      as [db rows| |] eqn:Hex; try reflexivity.
    now apply (execute_select_same _ _ _ _ _ Hrest) in Hex as ->.
  - intros u p e. unfold create_user, create_user_when.
    destruct (Sql.execute (users w) (insert_query u (md5_hex p) e))
      as [db rows| |] eqn:Hex.
    + apply execute_grows in Hex as [added ->]. now exists added.
    + exists []. cbn. now rewrite app_nil_r.
    + exists []. cbn. now rewrite app_nil_r.
Qed.

(** ** The secret key *)

Lemma set_key_twice (k k' : string) (w : world) :
  set_SECRET_KEY k (set_SECRET_KEY k' w) = set_SECRET_KEY k w.
Proof. reflexivity. Qed.

Lemma perform_key (k : string) (acts : list Sh.action) (w : world) :
  perform_all acts (set_SECRET_KEY k w)
  = option_map (set_SECRET_KEY k) (perform_all acts w).
Proof.
  revert w. induction acts as [|a acts IH]; intros w; [reflexivity|].
  cbn [perform_all]. destruct a as [line | argv]; cbn [perform].
  - apply (IH (print line w)).
  - unfold spawn. cbn [programs users stdout stderr set_SECRET_KEY].
    destruct (programs w argv (users w, stdout w, stderr w))
      as [[[db out] err]|]; [|reflexivity].
    apply (IH (World (SECRET_KEY w) (global_counter w) db out err
                     (spawned w ++ [argv]) (programs w))).
Qed.

Lemma run_call_key (k : string) (c : call) (w : world) :
  run_call c (set_SECRET_KEY k w)
  = (fst (run_call c w), set_SECRET_KEY k (snd (run_call c w))).
Proof.
  destruct c as [u p e | msg u p e | u p | v | s | ]; cbn [run_call].
  - unfold create_user, create_user_when. cbn [users set_SECRET_KEY].
    now destruct (Sql.execute (users w) _).
  - unfold create_user_when. cbn [users set_SECRET_KEY].
    now destruct (Sql.execute (users w) _).
  - unfold authenticate. cbn [users set_SECRET_KEY].
    now destruct (Sql.execute (users w) _).
  - unfold get_user_data. cbn [users set_SECRET_KEY].
    destruct (format v); try reflexivity.
    now destruct (Sql.execute (users w) _).
  - unfold execute_system_command.
    destruct (Sh.system _); [|reflexivity].
    rewrite perform_key. now destruct (perform_all _ w).
  - reflexivity.
Qed.

Lemma run_key (k : string) (cs : list call) (w : world) :
  run cs (set_SECRET_KEY k w)
  = (fst (run cs w), set_SECRET_KEY k (snd (run cs w))).
Proof.
  revert w. induction cs as [|c cs IH]; intros w; [reflexivity|].
  cbn [run]. rewrite run_call_key.
  destruct (run_call c w) as [a w1]. cbn [fst snd]. rewrite IH.
  now destruct (run cs w1).
Qed.

(** C8: no operation reads the secret key.  Two runs of one sequence of
    calls that start from states differing only in the key give the same
    results, and end in states that again differ only in the key. *)
Theorem secret_key_unused (k1 k2 : string) (cs : list call) (w : world) :
  fst (run cs (set_SECRET_KEY k1 w)) = fst (run cs (set_SECRET_KEY k2 w))
  /\ snd (run cs (set_SECRET_KEY k2 w))
     = set_SECRET_KEY k2 (snd (run cs (set_SECRET_KEY k1 w))).
Proof.
  rewrite !run_key. cbn [fst snd]. now rewrite set_key_twice.
Qed.

(** ** create_user: what a failure leaves *)




(** * Further properties *)

(** ** Quoted text in a statement *)

Lemma lex_escaped (u acc rest : string) :
  Sql.lex (Sql.InStr acc) (sql_escape u ++ rest)%string
  = Sql.lex (Sql.InStr (acc ++ u)%string) rest.
Proof.
  revert acc. induction u as [|c u IH]; intros acc; simpl.
  - now rewrite append_nil_r.
  - destruct (Ascii.eqb c Sql.quote) eqn:Hc.
    + apply Ascii.eqb_eq in Hc. subst c. simpl. rewrite IH.
      unfold Sql.snoc. now rewrite append_assoc.
    + simpl. rewrite Hc. simpl. rewrite IH.
      unfold Sql.snoc. now rewrite append_assoc.
Qed.

Lemma has_nul_escape (u : string) :
  Sql.has_nul (sql_escape u) = Sql.has_nul u.
Proof.
  induction u as [|c u IH]; simpl; [reflexivity|].
  destruct (Ascii.eqb c Sql.quote) eqn:Hc; simpl; rewrite IH.
  - apply Ascii.eqb_eq in Hc. subst c. reflexivity.
  - reflexivity.
Qed.

Lemma sql_escape_plain (u : string) : plain u = true -> sql_escape u = u.
Proof.
  induction u as [|c u IH]; simpl; [reflexivity|].
  intros [Hc Hu]%andb_true_iff. apply andb_true_iff in Hc as [Hq _].
  apply negb_true_iff in Hq. now rewrite Hq, IH.
Qed.

Lemma plain_no_nul' (s : string) : plain s = true -> no_nul s = true.
Proof. intros H. unfold no_nul. now rewrite plain_no_nul. Qed.

Lemma tokens_insert_escaped (u h e : string) :
  plain h = true ->
  Sql.tokens (insert_query (sql_escape u) h (sql_escape e))
  = Sql.insert_head
      ++ [Sql.TLParen; Sql.TStr u; Sql.TComma; Sql.TStr h; Sql.TComma;
          Sql.TStr e; Sql.TRParen].
Proof.
  intros Hh. unfold Sql.tokens, insert_query. simpl.
  rewrite lex_escaped. simpl.
  rewrite lex_literal by assumption. simpl.
  rewrite lex_escaped. reflexivity.
Qed.

Lemma tokens_select_escaped (u h : string) :
  plain h = true ->
  Sql.tokens (select_query (sql_escape u) h)
  = Sql.select_head
      ++ [Sql.TWord "username"; Sql.TEq; Sql.TStr u; Sql.TWord "AND";
          Sql.TWord "password"; Sql.TEq; Sql.TStr h].
Proof.
  intros Hh. unfold Sql.tokens, select_query. simpl.
  rewrite lex_escaped. simpl.
  rewrite lex_literal by assumption. reflexivity.
Qed.

Lemma create_user_escaped (u p e : string) (w : world) (i : Z) :
  no_nul u = true -> no_nul e = true ->
  Sql.next_rowid (users w) = Some i ->
  create_user (sql_escape u) p (sql_escape e) w
  = (Returns true, set_users (users w ++ [Sql.Row i u (md5_hex p) e]) w).
Proof.
  unfold no_nul. intros Hu%negb_true_iff He%negb_true_iff Hi.
  unfold create_user, create_user_when, Sql.execute.
  assert (Hn : Sql.has_nul
                 (insert_query (sql_escape u) (md5_hex p) (sql_escape e))
               = false).
  { unfold insert_query.
    rewrite !has_nul_app, !has_nul_escape, Hu, He,
      (plain_no_nul _ (md5_hex_plain p)).
    reflexivity. }
  rewrite Hn, tokens_insert_escaped by apply md5_hex_plain.
  cbn. now rewrite Hi.
Qed.

Lemma authenticate_escaped (u p : string) (w : world) :
  no_nul u = true ->
  authenticate (sql_escape u) p w
  = (Returns (match matching u p w with [] => false | _ :: _ => true end), w).
Proof.
  unfold no_nul. intros Hu%negb_true_iff.
  unfold authenticate, Sql.execute.
  assert (Hn : Sql.has_nul (select_query (sql_escape u) (md5_hex p)) = false).
  { unfold select_query.
    rewrite !has_nul_app, !has_nul_escape, Hu,
      (plain_no_nul _ (md5_hex_plain p)).
    reflexivity. }
  rewrite Hn, tokens_select_escaped by apply md5_hex_plain.
  cbn. rewrite set_users_same. unfold matching.
  rewrite (filter_ext (Sql.satisfies _) (is_match u p)).
  - now destruct (filter (is_match u p) (users w)).
  - intros r. unfold Sql.satisfies, Sql.holds, is_match. cbn.
    now rewrite andb_true_r.
Qed.

(** ** Statements that only read *)

Lemma authenticate_same (u p : string) (w : world) :
  snd (authenticate u p w) = w.
Proof.
  unfold authenticate.
  destruct (select_query_head u (md5_hex p)) as [rest Hrest].
  destruct (Sql.execute (users w) (select_query u (md5_hex p)))
    as [db rows| |] eqn:Hex; try reflexivity.
  apply (execute_select_same _ _ _ _ _ Hrest) in Hex as ->.
  cbn [snd]. apply set_users_same.
Qed.

Lemma get_user_data_same (v : pyval) (w : world) :
  snd (get_user_data v w) = w.
Proof.
  unfold get_user_data.
  destruct (format v) as [text | msg | ]; try reflexivity.
  destruct (lookup_query_head text) as [rest Hrest].
  destruct (Sql.execute (users w) (lookup_query text))
    as [db rows| |] eqn:Hex; try reflexivity.
  apply (execute_select_same _ _ _ _ _ Hrest) in Hex as ->.
  cbn [snd]. apply set_users_same.
Qed.

(** X1: text without NUL, written with its quotes doubled, is stored as it
    is: [create_user] returns true and appends exactly one record, with the
    next rowid, the username, the digest of the password (whatever the
    password contains) and the email; the rest of the state is untouched.
    Plain text needs no doubling. *)
Theorem create_user_stores (u p e : string) (w : world) (i : Z) :
  no_nul u = true -> no_nul e = true ->
  Sql.next_rowid (users w) = Some i ->
  create_user (sql_escape u) p (sql_escape e) w
  = (Returns true, set_users (users w ++ [Sql.Row i u (md5_hex p) e]) w)
  /\ (plain u = true -> plain e = true ->
      create_user u p e w
      = (Returns true, set_users (users w ++ [Sql.Row i u (md5_hex p) e]) w)).
Proof.
  intros Hu He Hi. split.
  - now apply create_user_escaped.
  - intros Pu Pe. now apply create_user_plain.
Qed.

Lemma create_user_stores_witness :
  create_user (sql_escape "O'Brien") "it's" (sql_escape "o'b@x.com") two_alices
  = (Returns true,
     set_users (users two_alices
                ++ [Sql.Row 3 "O'Brien" (md5_hex "it's") "o'b@x.com"])
       two_alices).
Proof.
  apply (create_user_stores "O'Brien" "it's" "o'b@x.com" two_alices 3);
    vm_compute; reflexivity.
Defined.

(** X2: creation and authentication round trip.  After [create_user] with
    a username and an email without NUL, quotes doubled, [authenticate]
    with the same username and password returns true and changes
    nothing. *)
Theorem create_then_authenticate (u p e : string) (w : world) (i : Z) :
  no_nul u = true -> no_nul e = true ->
  Sql.next_rowid (users w) = Some i ->
  authenticate (sql_escape u) p
    (snd (create_user (sql_escape u) p (sql_escape e) w))
  = (Returns true, snd (create_user (sql_escape u) p (sql_escape e) w)).
Proof.
  intros Hu He Hi. rewrite (create_user_escaped u p e w i Hu He Hi).
  cbn [snd]. rewrite (authenticate_escaped u p _ Hu).
  unfold matching, is_match. cbn [users set_users].
  rewrite filter_app. cbn. rewrite !String.eqb_refl. cbn.
  now destruct (filter _ (users w)).
Qed.

Lemma create_then_authenticate_witness :
  authenticate (sql_escape "O'Brien") "pw"
    (snd (create_user (sql_escape "O'Brien") "pw" (sql_escape "o@x.com") fresh))
  = (Returns true,
     snd (create_user (sql_escape "O'Brien") "pw" (sql_escape "o@x.com") fresh)).
Proof.
  apply (create_then_authenticate "O'Brien" "pw" "o@x.com" fresh 1);
    vm_compute; reflexivity.
Defined.

(** ** Reading never writes *)

(** X3: [authenticate] and [get_user_data] are read-only for every
    argument, injected text included: whatever they return or raise, the
    whole state (table, counter, output streams, started programs) is as
    before. *)
Theorem lookups_change_nothing (w : world) :
  (forall u p, snd (authenticate u p w) = w)
  /\ (forall v, snd (get_user_data v w) = w).
Proof.
  split; [intros u p; apply authenticate_same
         | intros v; apply get_user_data_same].
Qed.

(** ** NUL characters *)

(** X4: a NUL character in the username or the email makes [create_user]
    return false, print the refusal of the statement and keep the table;
    a NUL character in the username makes [authenticate] raise that
    refusal. *)
Theorem nul_is_refused (u p e : string) (w : world) :
  (Sql.has_nul u = true \/ Sql.has_nul e = true ->
   create_user u p e w
   = (Returns false,
      print "Database error: the query contains a null character" w))
  /\ (Sql.has_nul u = true ->
      authenticate u p w = (Raises "the query contains a null character", w)).
Proof.
  split.
  - intros H. unfold create_user, create_user_when, Sql.execute, insert_query.
    rewrite !has_nul_app.
    destruct H as [-> | ->]; cbn [Sql.has_nul orb];
      rewrite ?orb_true_r; reflexivity.
  - intros H. unfold authenticate, Sql.execute, select_query.
    rewrite !has_nul_app, H. cbn [Sql.has_nul orb].
    rewrite ?orb_true_r. reflexivity.
Qed.

(** ** Text that leaves its literal *)

Lemma lex_comment (s rest : string) :
  no_newline s = true ->
  Sql.lex Sql.Comment (s ++ rest)%string = Sql.lex Sql.Comment rest.
Proof.
  induction s as [|c s IH]; simpl; [reflexivity|].
  intros [Hc Hs]%andb_true_iff. apply negb_true_iff in Hc.
  rewrite Hc. simpl. now apply IH.
Qed.

Lemma is_hex_no_newline (c : ascii) :
  is_hex c = true -> negb (Sql.code c =? 10)%N = true.
Proof. by_char c. Qed.

Lemma md5_hex_no_newline (p : string) : no_newline (md5_hex p) = true.
Proof.
  apply (all_chars_impl is_hex); [exact is_hex_no_newline|].
  apply hexdigest_is_hex.
Qed.

Lemma lex_in_word (w acc rest : string) :
  all_chars Sql.is_alpha w = true ->
  Sql.lex (Sql.InWord acc) (w ++ String " " rest)%string
  = Sql.TWord (acc ++ w)%string :: Sql.lex Sql.Normal rest.
Proof.
  revert acc. induction w as [|c w IH]; intros acc Hw; simpl.
  - now rewrite append_nil_r.
  - simpl in Hw. apply andb_true_iff in Hw as [Hc Hw].
    rewrite Hc. simpl. rewrite IH by assumption.
    unfold Sql.snoc. now rewrite append_assoc.
Qed.

Lemma lex_word (w rest : string) :
  w <> EmptyString -> all_chars Sql.is_alpha w = true ->
  Sql.lex Sql.Normal (w ++ String " " rest)%string
  = Sql.TWord w :: Sql.lex Sql.Normal rest.
Proof.
  destruct w as [|c w]; [congruence|]. intros _ Hw.
  simpl in Hw. apply andb_true_iff in Hw as [Hc Hw].
  assert (Hs : Sql.is_space c = false) by (revert Hc; clear; by_char c).
  simpl. unfold Sql.step_normal. rewrite Hs, Hc. simpl.
  now rewrite lex_in_word.
Qed.

Lemma alpha_no_nul (w : string) :
  all_chars Sql.is_alpha w = true -> Sql.has_nul w = false.
Proof.
  induction w as [|c w IH]; simpl; [reflexivity|].
  intros [Hc Hw]%andb_true_iff. rewrite (IH Hw), orb_false_r.
  revert Hc. clear. by_char c.
Qed.

Lemma no_nul_false (s : string) : no_nul s = true -> Sql.has_nul s = false.
Proof. unfold no_nul. now intros H%negb_true_iff. Qed.

(** X5: a username that closes the literal after [u] and comments out the
    rest of the statement authenticates without the password: the result
    is true exactly when some record has the username [u], whatever the
    password argument. *)
Theorem comment_bypass (u p : string) (w : world) :
  plain u = true ->
  authenticate (u ++ "' --") p w
  = (Returns (existsb (fun r => String.eqb (Sql.col_username r) u) (users w)),
     w).
Proof.
  intros Hu. unfold authenticate, Sql.execute.
  assert (Hn : Sql.has_nul (select_query (u ++ "' --") (md5_hex p)) = false).
  { unfold select_query.
    rewrite !has_nul_app, (plain_no_nul u Hu),
      (plain_no_nul _ (md5_hex_plain p)).
    reflexivity. }
  rewrite Hn.
  assert (Ht : Sql.tokens (select_query (u ++ "' --") (md5_hex p))
               = Sql.select_head
                   ++ [Sql.TWord "username"; Sql.TEq; Sql.TStr u]).
  { unfold Sql.tokens, select_query. rewrite append_assoc. simpl.
    rewrite lex_literal by assumption. simpl.
    rewrite lex_comment by apply md5_hex_no_newline. reflexivity. }
  rewrite Ht. cbn. rewrite set_users_same. f_equal.
  induction (users w) as [|r db IH]; [reflexivity|].
  cbn. unfold Sql.satisfies at 1, Sql.holds. cbn.
  rewrite andb_true_r.
  destruct (String.eqb (Sql.col_username r) u); [reflexivity|].
  cbn. exact IH.
Qed.

Lemma comment_bypass_witness :
  authenticate "alice' --" "not the password" two_alices
  = (Returns true, two_alices).
Proof.
  apply (comment_bypass "alice" "not the password" two_alices). reflexivity.
Defined.

(** X6: a username that closes its literal chooses all three stored
    fields: the record added is ([a], [b], [c]), so the credential field is
    [b] and not the digest of the password, and the email argument is
    ignored. *)
Theorem injected_values_stored (a b c p e : string) (w : world) (i : Z) :
  plain a = true -> plain b = true -> plain c = true ->
  no_nul e = true -> no_newline e = true ->
  Sql.next_rowid (users w) = Some i ->
  create_user (a ++ "', '" ++ b ++ "', '" ++ c ++ "') --") p e w
  = (Returns true, set_users (users w ++ [Sql.Row i a b c]) w).
Proof.
  intros Ha Hb Hc He Hl Hi. unfold create_user, create_user_when, Sql.execute.
  assert (Hn : Sql.has_nul
                 (insert_query (a ++ "', '" ++ b ++ "', '" ++ c ++ "') --")
                    (md5_hex p) e) = false).
  { unfold insert_query.
    rewrite !has_nul_app, (plain_no_nul a Ha), (plain_no_nul b Hb),
      (plain_no_nul c Hc), (plain_no_nul _ (md5_hex_plain p)),
      (no_nul_false e He).
    reflexivity. }
  rewrite Hn.
  assert (Ht : Sql.tokens
                 (insert_query (a ++ "', '" ++ b ++ "', '" ++ c ++ "') --")
                    (md5_hex p) e)
               = Sql.insert_head
                   ++ [Sql.TLParen; Sql.TStr a; Sql.TComma; Sql.TStr b;
                       Sql.TComma; Sql.TStr c; Sql.TRParen]).
  { unfold Sql.tokens, insert_query. rewrite !append_assoc. simpl.
    rewrite lex_literal by assumption. simpl.
    rewrite lex_literal by assumption. simpl.
    rewrite lex_literal by assumption. simpl.
    rewrite lex_comment by apply md5_hex_no_newline. simpl.
    rewrite lex_comment by assumption. reflexivity. }
  rewrite Ht. cbn. now rewrite Hi.
Qed.

Lemma injected_values_stored_witness :
  create_user "bob', 'hunter2', 'm') --" "hunter2" "b@x.com" fresh
  = (Returns true, set_users [Sql.Row 1 "bob" "hunter2" "m"] fresh).
Proof.
  apply (injected_values_stored "bob" "hunter2" "m" "hunter2" "b@x.com"
           fresh 1); reflexivity.
Defined.

(** X7: a second statement is never run.  When the username closes the
    row and the statement and goes on with a word, whatever follows,
    [create_user] returns false, prints that only one statement can be
    executed, and leaves the table as it is. *)
Theorem stacked_statement_refused
        (a b c word t p e : string) (w : world) :
  plain a = true -> plain b = true -> plain c = true ->
  word <> EmptyString -> all_chars Sql.is_alpha word = true ->
  no_nul t = true -> no_nul e = true ->
  create_user (a ++ "', '" ++ b ++ "', '" ++ c ++ "'); " ++ word ++ " " ++ t)
    p e w
  = (Returns false,
     print "Database error: You can only execute one statement at a time." w).
Proof.
  intros Ha Hb Hc Hne Hw Ht He. unfold create_user, create_user_when, Sql.execute.
  assert (Hn : Sql.has_nul
                 (insert_query (a ++ "', '" ++ b ++ "', '" ++ c ++ "'); "
                                  ++ word ++ " " ++ t)
                    (md5_hex p) e) = false).
  { unfold insert_query.
    rewrite !has_nul_app, (plain_no_nul a Ha), (plain_no_nul b Hb),
      (plain_no_nul c Hc), (plain_no_nul _ (md5_hex_plain p)),
      (no_nul_false e He), (no_nul_false t Ht), (alpha_no_nul _ Hw).
    reflexivity. }
  rewrite Hn.
  assert (Htok : exists junk,
             Sql.tokens
               (insert_query (a ++ "', '" ++ b ++ "', '" ++ c ++ "'); "
                                ++ word ++ " " ++ t)
                  (md5_hex p) e)
             = Sql.insert_head
                 ++ [Sql.TLParen; Sql.TStr a; Sql.TComma; Sql.TStr b;
                     Sql.TComma; Sql.TStr c; Sql.TRParen; Sql.TSemi;
                     Sql.TWord word] ++ junk).
  { eexists. unfold Sql.tokens, insert_query. rewrite !append_assoc. simpl.
    rewrite lex_literal by assumption. simpl.
    rewrite lex_literal by assumption. simpl.
    rewrite lex_literal by assumption. simpl.
    rewrite lex_word by assumption. reflexivity. }
  destruct Htok as [junk ->]. reflexivity.
Qed.

Lemma stacked_statement_refused_witness :
  create_user drop_tables "pw123" "a@x.com" two_alices
  = (Returns false,
     print "Database error: You can only execute one statement at a time."
       two_alices).
Proof.
  apply (stacked_statement_refused "x" "h" "e" "DROP" "TABLE users; --"
           "pw123" "a@x.com" two_alices); (reflexivity || discriminate).
Defined.

(** ** Any sequence of calls *)


Lemma run_call_snd (c : call) (w : world) :
  snd (run_call c w)
  = match c with
    | CreateUser u p e => snd (create_user u p e w)
    | CreateUserRefused msg u p e =>
        snd (create_user_when (Sql.Refused msg) u p e w)
    | Authenticate u p => snd (authenticate u p w)
    | GetUserData v => snd (get_user_data v w)
    | ExecuteSystemCommand s => snd (execute_system_command s w)
    | IncrementCounter => snd (increment_counter w)
    end.
Proof.
  destruct c; cbn [run_call];
    match goal with |- context [let '(_, _) := ?x in _] => now destruct x end.
Qed.

Lemma run_cons (c : call) (cs : list call) (w : world) :
  snd (run (c :: cs) w) = snd (run cs (snd (run_call c w))).
Proof.
  cbn [run]. destruct (run_call c w) as [a w1]. cbn [snd].
  now destruct (run cs w1).
Qed.









(** ** Identifiers *)

Lemma largest_rowid_in (db : Sql.table) (m : Z) :
  Sql.largest_rowid db = Some m -> exists r, In r db /\ Sql.col_id r = m.
Proof.
  revert m. induction db as [|x db IH]; intros m Hm; [discriminate|].
  simpl in Hm. destruct (Sql.largest_rowid db) as [m'|].
  - injection Hm as <-. destruct (IH m' eq_refl) as (r & Hr & Hid).
    destruct (Z.max_spec (Sql.col_id x) m') as [[_ ->] | [_ ->]].
    + exists r. split; [now right | assumption].
    + exists x. split; [now left | reflexivity].
  - injection Hm as <-. exists x. split; [now left | reflexivity].
Qed.

Lemma next_rowid_int64 (db : Sql.table) (i : Z) :
  Forall (fun r => Sql.int64 (Sql.col_id r) = true) db ->
  Sql.next_rowid db = Some i -> Sql.int64 i = true.
Proof.
  intros Hdb. unfold Sql.next_rowid.
  destruct (Sql.largest_rowid db) as [m|] eqn:Hm.
  - destruct (Z.ltb_spec m Sql.max_rowid) as [Hlt|]; [|discriminate].
    intros [= <-]. apply largest_rowid_in in Hm as (r & Hr & <-).
    rewrite Forall_forall in Hdb. specialize (Hdb r Hr).
    unfold Sql.int64 in *. apply andb_true_iff in Hdb as [Hlo Hhi].
    apply Z.leb_le in Hlo. apply Z.leb_le in Hhi.
    apply andb_true_iff. split; apply Z.leb_le; lia.
  - now intros [= <-].
Qed.

Lemma insert_rows_unique (vs : list (string * string * string))
      (db db' : Sql.table) :
  NoDup (map Sql.col_id db) ->
  Sql.insert_rows db vs = Some db' -> NoDup (map Sql.col_id db').
Proof.
  revert db. induction vs as [|[[u p] e] vs IH]; intros db Hdb H; simpl in H.
  - now injection H as <-.
  - destruct (Sql.next_rowid db) as [i|] eqn:Hi; [|discriminate].
    apply (IH (db ++ [Sql.Row i u p e])).
    + rewrite map_app. apply NoDup_app; [assumption | |].
      * cbn. constructor; [intros [] | constructor].
      * intros a Ha [<- | []]. cbn in Ha.
        apply in_map_iff in Ha as (r & Hr & Hin).
        pose proof (next_rowid_unused db i Hi r Hin). lia.
    + exact H.
Qed.

Lemma insert_rows_int64 (vs : list (string * string * string))
      (db db' : Sql.table) :
  Forall (fun r => Sql.int64 (Sql.col_id r) = true) db ->
  Sql.insert_rows db vs = Some db' ->
  Forall (fun r => Sql.int64 (Sql.col_id r) = true) db'.
Proof.
  revert db. induction vs as [|[[u p] e] vs IH]; intros db Hdb H; simpl in H.
  - now injection H as <-.
  - destruct (Sql.next_rowid db) as [i|] eqn:Hi; [|discriminate].
    apply (IH (db ++ [Sql.Row i u p e])); [|exact H].
    apply Forall_app. split; [assumption|].
    constructor; [|constructor]. cbn [Sql.col_id].
    now apply (next_rowid_int64 db).
Qed.

Lemma execute_unique (db db' : Sql.table) (sql : string)
      (rows : list Sql.row) :
  NoDup (map Sql.col_id db)
  /\ Forall (fun r => Sql.int64 (Sql.col_id r) = true) db ->
  Sql.execute db sql = Sql.Done db' rows ->
  NoDup (map Sql.col_id db')
  /\ Forall (fun r => Sql.int64 (Sql.col_id r) = true) db'.
Proof.
  intros [Hnd Hall]. unfold Sql.execute, Sql.run.
  destruct (Sql.has_nul sql); [discriminate|].
  destruct (Sql.strip Sql.insert_head (Sql.tokens sql)) as [rest|].
  - unfold Sql.run_insert.
    destruct (Sql.values_rows rest) as [vs rest' | word | ];
      [|discriminate|discriminate].
    destruct (Sql.statement_end rest'); try discriminate.
    destruct (Sql.insert_rows db vs) as [db''|] eqn:Hins; [|discriminate].
    intros [= <- _]. split.
    + now apply (insert_rows_unique vs db).
    + now apply (insert_rows_int64 vs db).
  - destruct (Sql.strip Sql.select_head (Sql.tokens sql)) as [rest|];
      [|discriminate].
    intros H. now apply run_select_same in H as ->.
Qed.

Lemma run_call_unique (c : call) (w : world) :
  is_command c = false -> unique_ids w -> unique_ids (snd (run_call c w)).
Proof.
  unfold unique_ids. intros Hc Hw. rewrite run_call_snd.
  destruct c as [u p e | msg u p e | u p | v | s | ].
  - unfold create_user, create_user_when.
    destruct (Sql.execute (users w) (insert_query u (md5_hex p) e))
      as [db rows| |] eqn:Hex; try assumption.
    cbn. now apply (execute_unique _ _ _ _ Hw) in Hex.
  - unfold create_user_when.
    destruct (Sql.execute (users w) (insert_query u (md5_hex p) e))
      as [db rows| |] eqn:Hex; try assumption.
    cbn. now apply (execute_unique _ _ _ _ Hw) in Hex.
  - now rewrite authenticate_same.
  - now rewrite get_user_data_same.
  - discriminate Hc.
  - assumption.
Qed.

(** X11: the primary key is an invariant.  If the stored identifiers are
    64-bit integers and no two records share one, the same holds after any
    sequence of calls without [execute_system_command], with any
    arguments, each of which ends in a way the model covers. *)
Theorem ids_stay_unique (cs : list call) (w : world) :
  forallb (fun c => negb (is_command c)) cs = true ->
  forallb settled (fst (run cs w)) = true ->
  unique_ids w -> unique_ids (snd (run cs w)).
Proof.
  intros Hcs _. revert w Hcs.
  induction cs as [|c cs IH]; intros w Hcs Hw; [exact Hw|].
  cbn [forallb] in Hcs. apply andb_true_iff in Hcs as [Hc Hcs].
  apply negb_true_iff in Hc.
  rewrite run_cons. apply IH; [assumption|]. now apply run_call_unique.
Qed.

Lemma ids_stay_unique_witness :
  unique_ids
    (snd (run [CreateUser "alice" "pw123" "a@x.com";
               CreateUser "x', 'h', 'e'), ('y', 'h', 'e') --" "pw" "m";
               CreateUserRefused "database is locked" "carol" "pw" "c@x.com";
               CreateUser "alice" "pw123" "a@x.com"] fresh)).
Proof.
  apply (ids_stay_unique _ fresh); [vm_compute; reflexivity ..|].
  unfold unique_ids. split; constructor.
Defined.

Lemma filter_unique {A : Type} (f : A -> Z) (l : list A) (r : A) :
  NoDup (map f l) -> In r l ->
  filter (fun x => (f x =? f r)%Z) l = [r].
Proof.
  induction l as [|x l IH]; intros Hnd Hin; [destruct Hin|].
  cbn in Hnd. inversion Hnd as [|? ? Hx Hl]; subst. cbn.
  destruct Hin as [-> | Hin].
  - rewrite Z.eqb_refl. f_equal. apply filter_none.
    intros y Hy. apply Z.eqb_neq. intros Heq. apply Hx.
    rewrite <- Heq. now apply in_map.
  - destruct (Z.eqb_spec (f x) (f r)) as [Heq|_].
    + exfalso. apply Hx. rewrite Heq. now apply in_map.
    + now apply IH.
Qed.

(** X12: lookup by identifier.  In a table where identifiers are unique,
    [get_user_data] on the identifier of a stored record returns exactly
    that record, and changes nothing. *)
Theorem get_user_data_finds (r : Sql.row) (w : world) :
  unique_ids w -> In r (users w) ->
  get_user_data (PyInt (Sql.col_id r)) w = (Returns (Some r), w).
Proof.
  intros [Hu Hall] Hin. rewrite Forall_forall in Hall.
  rewrite get_user_data_int by (apply int64_not_too_long; now apply Hall).
  now rewrite (filter_unique Sql.col_id (users w) r Hu Hin).
Qed.

Lemma get_user_data_finds_witness :
  get_user_data (PyInt 2) two_bobs
  = (Returns (Some (Sql.Row 2 "bob" (md5_hex "first") "b@x.com")), two_bobs).
Proof.
  apply (get_user_data_finds (Sql.Row 2 "bob" (md5_hex "first") "b@x.com")
           two_bobs).
  - unfold unique_ids. split.
    + vm_compute. constructor; [intros [H | []]; discriminate H|].
      constructor; [intros [] | constructor].
    + apply Forall_forall. intros r Hr. vm_compute in Hr.
      destruct Hr as [<- | [<- | []]]; reflexivity.
  - vm_compute. right. left. reflexivity.
Defined.

(** ** What the calls leave alone *)

Lemma perform_frame (acts : list Sh.action) (w w' : world) :
  perform_all acts w = Some w' ->
  global_counter w' = global_counter w /\ SECRET_KEY w' = SECRET_KEY w.
Proof.
  revert w. induction acts as [|a acts IH]; intros w H; cbn in H.
  - now injection H as <-.
  - destruct (perform a w) as [w1|] eqn:Ha; [|discriminate].
    destruct (IH w1 H) as [H1 H2]. rewrite H1, H2.
    destruct a as [line | argv]; cbn in Ha.
    + now injection Ha as <-.
    + unfold spawn in Ha.
      destruct (programs w argv _) as [[[db out] err]|]; [|discriminate].
      now injection Ha as <-.
Qed.

Lemma create_user_frame (fate : Sql.commit_fate) (u p e : string)
      (w : world) :
  let w' := snd (create_user_when fate u p e w) in
  global_counter w' = global_counter w /\ stderr w' = stderr w
  /\ SECRET_KEY w' = SECRET_KEY w /\ spawned w' = spawned w.
Proof.
  unfold create_user_when.
  destruct (Sql.execute (users w) (insert_query u (md5_hex p) e));
    [now destruct fate | easy | easy].
Qed.

Lemma run_call_frame (c : call) (w : world) :
  let w' := snd (run_call c w) in
  global_counter w'
  = (global_counter w + (if is_increment c then 1 else 0))%Z
  /\ SECRET_KEY w' = SECRET_KEY w
  /\ (is_command c = false ->
      stderr w' = stderr w /\ spawned w' = spawned w).
Proof.
  cbn zeta. rewrite run_call_snd.
  destruct c as [u p e | msg u p e | u p | v | s | ].
  - destruct (create_user_frame Sql.Committed u p e w) as (H1 & H2 & H3 & H4).
    unfold create_user. cbn [is_increment]. rewrite H1, H2, H3, H4.
    repeat split; lia.
  - destruct (create_user_frame (Sql.Refused msg) u p e w)
      as (H1 & H2 & H3 & H4).
    cbn [is_increment]. rewrite H1, H2, H3, H4.
    repeat split; lia.
  - rewrite authenticate_same. cbn. repeat split; lia.
  - rewrite get_user_data_same. cbn. repeat split; lia.
  - unfold execute_system_command. cbn [is_increment is_command].
    destruct (Sh.system _) as [acts|]; cbn [snd].
    + destruct (perform_all acts w) as [w'|] eqn:Hacts; cbn [snd].
      * destruct (perform_frame acts w w' Hacts) as [H1 H2].
        rewrite H1, H2. repeat split; try lia; discriminate.
      * repeat split; try lia; discriminate.
    + repeat split; try lia; discriminate.
  - cbn. repeat split.
Qed.

(** X13: only [increment_counter] touches the counter.  After any
    sequence of calls the counter is its value before the sequence plus
    the number of [increment_counter] calls in it. *)
Theorem counter_counts_increments (cs : list call) (w : world) :
  global_counter (snd (run cs w))
  = (global_counter w + Z.of_nat (List.length (filter is_increment cs)))%Z.
Proof.
  revert w. induction cs as [|c cs IH]; intros w; [cbn; lia|].
  rewrite run_cons, IH.
  destruct (run_call_frame c w) as (H & _). cbn zeta in H. rewrite H.
  cbn [filter]. destruct (is_increment c); cbn [List.length]; lia.
Qed.

(** X14: the functions themselves write nothing to standard error and
    leave [SECRET_KEY] alone: after a sequence of calls without
    [execute_system_command], each of which ends in a way the model
    covers, both are as before.  (The shell and the programs that
    [execute_system_command] starts do write to standard error.) *)
Theorem stderr_and_key_untouched (cs : list call) (w : world) :
  forallb (fun c => negb (is_command c)) cs = true ->
  forallb settled (fst (run cs w)) = true ->
  stderr (snd (run cs w)) = stderr w
  /\ SECRET_KEY (snd (run cs w)) = SECRET_KEY w.
Proof.
  intros Hcs _. revert w Hcs.
  induction cs as [|c cs IH]; intros w Hcs; [now cbn|].
  cbn [forallb] in Hcs. apply andb_true_iff in Hcs as [Hc Hcs].
  apply negb_true_iff in Hc.
  rewrite run_cons. destruct (IH (snd (run_call c w)) Hcs) as [H1 H2].
  destruct (run_call_frame c w) as (_ & H3 & H4). cbn zeta in *.
  destruct (H4 Hc) as [H5 _]. now rewrite H1, H2, H3, H5.
Qed.

Lemma stderr_and_key_untouched_witness :
  stderr (snd (run [CreateUser "O'Brien" "pw" "o@x.com";
                    CreateUser "bob" "pw" "b@x.com";
                    Authenticate "alice' --" "x";
                    GetUserData (PyInt (10 ^ 4300));
                    IncrementCounter] two_alices))
  = stderr two_alices
  /\ SECRET_KEY (snd (run [CreateUser "O'Brien" "pw" "o@x.com";
                           CreateUser "bob" "pw" "b@x.com";
                           Authenticate "alice' --" "x";
                           GetUserData (PyInt (10 ^ 4300));
                           IncrementCounter] two_alices))
     = SECRET_KEY two_alices.
Proof.
  apply (stderr_and_key_untouched _ two_alices); vm_compute; reflexivity.
Defined.

(** X15: statements never reach the shell.  A sequence of calls without
    [execute_system_command] starts no program, whatever text its
    arguments carry. *)
Theorem only_the_runner_spawns (cs : list call) (w : world) :
  forallb (fun c => negb (is_command c)) cs = true ->
  spawned (snd (run cs w)) = spawned w.
Proof.
  revert w. induction cs as [|c cs IH]; intros w Hcs; [reflexivity|].
  cbn [forallb] in Hcs. apply andb_true_iff in Hcs as [Hc Hcs].
  apply negb_true_iff in Hc.
  rewrite run_cons, IH by assumption.
  destruct (run_call_frame c w) as (_ & _ & H). now apply H.
Qed.

Lemma only_the_runner_spawns_witness :
  spawned (snd (run [CreateUser drop_tables "pw" "m";
                     Authenticate "alice' --" "x";
                     GetUserData (PyStr "1; /usr/bin/id");
                     IncrementCounter] two_alices))
  = spawned two_alices.
Proof. apply (only_the_runner_spawns _ two_alices). reflexivity. Defined.

(** ** The command runner on words *)

Lemma split_no_sep (sep : ascii -> bool) (s cur : string) :
  all_chars (fun c => negb (sep c)) s = true ->
  Sh.split sep cur s = [(cur ++ s)%string].
Proof.
  revert cur. induction s as [|c s IH]; intros cur Hs; simpl.
  - now rewrite append_nil_r.
  - simpl in Hs. apply andb_true_iff in Hs as [Hc Hs].
    apply negb_true_iff in Hc. rewrite Hc, IH by assumption.
    now rewrite append_assoc.
Qed.

Lemma word_char_not_semicolon (c : ascii) :
  Sh.is_plain c || Sh.is_blank c = true ->
  negb (Ascii.eqb c ";") = true.
Proof. by_char c. Qed.

Lemma word_char_allowed (c : ascii) :
  Sh.is_plain c || Sh.is_blank c = true ->
  Sh.is_plain c || Sh.is_blank c || Ascii.eqb c ";" = true.
Proof. intros ->. reflexivity. Qed.

(** X16: on input made of words (letters, digits, [_ - . /] and blanks,
    the first word not starting with [-]) the command runner prints one
    line, the words separated by single blanks, starts no program and
    changes nothing else. *)
Theorem runner_echoes_words (user_input : string) (w : world) :
  only_words user_input = true ->
  execute_system_command user_input w
  = (Returns tt, print (Sh.join (Sh.words user_input)) w).
Proof.
  unfold only_words. intros [Hc Hd]%andb_true_iff.
  unfold execute_system_command, Sh.system.
  assert (Hall : all_chars
                   (fun c => Sh.is_plain c || Sh.is_blank c || Ascii.eqb c ";")
                   ("echo " ++ user_input) = true).
  { simpl. apply (all_chars_impl _ _ _ word_char_allowed Hc). }
  rewrite Hall.
  rewrite (split_no_sep (fun c => Ascii.eqb c ";")).
  2:{ simpl. apply (all_chars_impl _ _ _ word_char_not_semicolon Hc). }
  cbn [append map].
  match goal with
  | |- context [Sh.words ?x] =>
      change (Sh.words x) with ("echo" :: Sh.words user_input)
  end.
  cbn [Sh.command_list Sh.simple_command].
  change (String.eqb "echo" "echo") with true. cbv iota.
  destruct (Sh.words user_input) as [|a args].
  - reflexivity.
  - apply negb_true_iff in Hd. rewrite Hd. reflexivity.
Qed.

Lemma runner_echoes_words_witness :
  execute_system_command "  hello   wide world " fresh
  = (Returns tt, print "hello wide world" fresh).
Proof. apply (runner_echoes_words "  hello   wide world " fresh). reflexivity. Defined.

(** ** Successive registrations *)

Lemma largest_rowid_snoc (db : Sql.table) (r : Sql.row) :
  Sql.largest_rowid (db ++ [r])
  = Some (match Sql.largest_rowid db with
          | None => Sql.col_id r
          | Some m => Z.max m (Sql.col_id r)
          end).
Proof.
  induction db as [|x db IH]; [reflexivity|].
  cbn [app Sql.largest_rowid]. rewrite IH.
  destruct (Sql.largest_rowid db) as [m|]; f_equal; lia.
Qed.

Lemma next_rowid_snoc (db : Sql.table) (i : Z) (u h e : string) :
  Sql.next_rowid db = Some i -> (i < Sql.max_rowid)%Z ->
  Sql.next_rowid (db ++ [Sql.Row i u h e]) = Some (i + 1)%Z.
Proof.
  unfold Sql.next_rowid. rewrite largest_rowid_snoc. cbn [Sql.col_id].
  destruct (Sql.largest_rowid db) as [m|].
  - destruct (m <? Sql.max_rowid)%Z eqn:Hm; [|discriminate].
    intros [= <-] Hi. replace (Z.max m (m + 1)) with (m + 1)%Z by lia.
    apply Z.ltb_lt in Hi. now rewrite Hi.
  - intros [= <-] Hi. apply Z.ltb_lt in Hi. now rewrite Hi.
Qed.

Lemma run_creates (ts : list (string * string * string)) (w : world) (i : Z) :
  forallb plain_triple ts = true ->
  Sql.next_rowid (users w) = Some i ->
  (i + Z.of_nat (List.length ts) <= Sql.max_rowid)%Z ->
  run (map create_call ts) w
  = (map (fun _ => ABool (Returns true)) ts,
     set_users (users w ++ numbered i ts) w).
Proof.
  revert w i. induction ts as [|[[u p] e] ts IH]; intros w i Hp Hi Hlen.
  - cbn. now rewrite app_nil_r, set_users_same.
  - cbn [forallb plain_triple] in Hp.
    apply andb_true_iff in Hp as [Hupe Hp].
    apply andb_true_iff in Hupe as [Hu He].
    cbn [List.length] in Hlen.
    cbn [map create_call run run_call].
    rewrite (create_user_plain u p e w i Hu He Hi).
    rewrite (IH _ (i + 1)%Z Hp).
    + cbn [users set_users numbered]. rewrite <- app_assoc. reflexivity.
    + cbn [users set_users]. apply next_rowid_snoc; [assumption | lia].
    + lia.
Qed.

(** X17: identifiers are handed out in order.  A series of [create_user]
    calls with plain usernames and emails, on a table whose next rowid is
    [i] and that has room for them, all return true and append their
    records in order with the identifiers [i], [i + 1], ...; on a new
    store the [k]-th user gets the identifier [k]. *)
Theorem creates_number_in_order
        (ts : list (string * string * string)) (w : world) (i : Z) :
  forallb plain_triple ts = true ->
  Sql.next_rowid (users w) = Some i ->
  (i + Z.of_nat (List.length ts) <= Sql.max_rowid)%Z ->
  fst (run (map create_call ts) w) = map (fun _ => ABool (Returns true)) ts
  /\ users (snd (run (map create_call ts) w)) = users w ++ numbered i ts.
Proof.
  intros Hp Hi Hlen. rewrite (run_creates ts w i Hp Hi Hlen). now cbn.
Qed.

Lemma creates_number_in_order_witness :
  fst (run (map create_call [("ann", "a", "a@x.com"); ("ben", "b", "b@x.com");
                             ("ann", "c", "c@x.com")]) fresh)
  = [ABool (Returns true); ABool (Returns true); ABool (Returns true)]
  /\ users (snd (run (map create_call
                        [("ann", "a", "a@x.com"); ("ben", "b", "b@x.com");
                         ("ann", "c", "c@x.com")]) fresh))
     = [Sql.Row 1 "ann" (md5_hex "a") "a@x.com";
        Sql.Row 2 "ben" (md5_hex "b") "b@x.com";
        Sql.Row 3 "ann" (md5_hex "c") "c@x.com"].
Proof.
  apply (creates_number_in_order
           [("ann", "a", "a@x.com"); ("ben", "b", "b@x.com");
            ("ann", "c", "c@x.com")] fresh 1);
    [reflexivity | reflexivity | vm_compute; discriminate].
Defined.

(** ** The demonstration *)

(** X18: with a plain username, any password and a table that has a free
    rowid, the main block registers the user with the email
    user@example.com and then prints Authentication successful!; it never
    prints the failure line for such input. *)
Theorem main_succeeds (username password : string) (w : world) (i : Z) :
  plain username = true ->
  Sql.next_rowid (users w) = Some i ->
  main_body username password w
  = (Returns tt,
     print "Authentication successful!"
       (set_users (users w
                   ++ [Sql.Row i username (md5_hex password) "user@example.com"])
          w)).
Proof.
  intros Hu Hi. unfold main_body.
  rewrite (create_user_plain username password "user@example.com" w i Hu
             eq_refl Hi).
  rewrite (authenticate_plain username password _ Hu).
  unfold matching, is_match. cbn [users set_users].
  rewrite filter_app. cbn. rewrite !String.eqb_refl. cbn.
  now destruct (filter _ (users w)).
Qed.

Lemma main_succeeds_witness :
  main_body "alice" "pw123" fresh
  = (Returns tt,
     print "Authentication successful!"
       (set_users [Sql.Row 1 "alice" (md5_hex "pw123") "user@example.com"]
          fresh)).
Proof. apply (main_succeeds "alice" "pw123" fresh 1); reflexivity. Defined.

(** X19: a NUL character in the username stops the main block.
    [create_user] prints the refusal and its false result is ignored; the
    exception that [authenticate] then raises is not caught, so neither
    result line is printed and the table is as before. *)
Theorem main_stops_on_nul (username password : string) (w : world) :
  Sql.has_nul username = true ->
  main_body username password w
  = (Raises "the query contains a null character",
     print "Database error: the query contains a null character" w).
Proof.
  intros H. unfold main_body, create_user, create_user_when, authenticate, Sql.execute,
    insert_query, select_query.
  rewrite !has_nul_app, H. cbn [Sql.has_nul orb users print].
  rewrite ?orb_true_r. reflexivity.
Qed.

Lemma main_stops_on_nul_witness :
  main_body (String "000"%char "bob") "pw" two_alices
  = (Raises "the query contains a null character",
     print "Database error: the query contains a null character" two_alices).
Proof.
  apply (main_stops_on_nul (String "000"%char "bob") "pw" two_alices).
  reflexivity.
Defined.

Lemma nul_is_refused_witness :
  create_user "bob" "pw" (String "000"%char "b@x.com") two_alices
  = (Returns false,
     print "Database error: the query contains a null character" two_alices)
  /\ authenticate (String "000"%char "bob") "pw" two_alices
     = (Raises "the query contains a null character", two_alices).
Proof.
  split.
  - apply (proj1 (nul_is_refused "bob" "pw" (String "000"%char "b@x.com")
                    two_alices)).
    right. reflexivity.
  - apply (proj2 (nul_is_refused (String "000"%char "bob") "pw" "" two_alices)).
    reflexivity.
Defined.

(** X20: usernames with quotes.  For any username without NUL, written
    with its quotes doubled, [authenticate] returns true if and only if a
    stored record has that username and the digest of the password, and it
    changes nothing. *)
Theorem authenticate_finds_quoted (u p : string) (w : world) :
  no_nul u = true ->
  exists b, authenticate (sql_escape u) p w = (Returns b, w)
    /\ (b = true <->
        exists r, In r (users w) /\ Sql.col_username r = u
                  /\ Sql.col_password r = md5_hex p).
Proof.
  intros Hu. rewrite (authenticate_escaped u p w Hu).
  eexists. split; [reflexivity|].
  destruct (matching u p w) as [|r rs] eqn:Hm.
  - split; [discriminate|].
    intros [r Hr]. apply matching_spec in Hr. rewrite Hm in Hr. destruct Hr.
  - split; [intros _ | reflexivity].
    exists r. apply matching_spec. rewrite Hm. now left.
Qed.

Lemma authenticate_finds_quoted_witness :
  exists b,
    authenticate (sql_escape "O'Brien") "pw"
      (set_users [Sql.Row 1 "O'Brien" (md5_hex "pw") "o@x.com"] fresh)
    = (Returns b, set_users [Sql.Row 1 "O'Brien" (md5_hex "pw") "o@x.com"] fresh)
    /\ (b = true <->
        exists r,
          In r (users (set_users [Sql.Row 1 "O'Brien" (md5_hex "pw") "o@x.com"]
                         fresh))
          /\ Sql.col_username r = "O'Brien"
          /\ Sql.col_password r = md5_hex "pw").
Proof.
  apply (authenticate_finds_quoted "O'Brien" "pw"
           (set_users [Sql.Row 1 "O'Brien" (md5_hex "pw") "o@x.com"] fresh)).
  reflexivity.
Defined.

(** ** create_user then get_user_data *)

Lemma hexdigest_length (bs : list Z) :
  String.length (hexdigest bs) = (2 * List.length bs)%nat.
Proof. induction bs as [|b bs IH]; simpl; [reflexivity | rewrite IH; lia]. Qed.

Lemma digest_length (msg : list Z) : List.length (MD5.digest msg) = 16%nat.
Proof.
  unfold MD5.digest.
  destruct (MD5.blocks _ _ _) as [a b c d].
  rewrite !length_app. reflexivity.
Qed.

Lemma md5_hex_digest_shaped (p : string) : digest_shaped (md5_hex p) = true.
Proof.
  unfold digest_shaped, md5_hex.
  rewrite hexdigest_length, digest_length, hexdigest_is_hex. reflexivity.
Qed.

(** X21: the round trip on plain text.  For a username and an email
    without quote and NUL, any password, and a table that keeps its
    primary key and has the free rowid [i], [create_user] returns true and
    [get_user_data] on [i] then returns the record ([i], username, digest
    of the password, email) and changes nothing; the credential field
    differs from every password that is not itself written like a
    digest. *)
Theorem plain_user_retrieved (u p e : string) (w : world) (i : Z) :
  plain u = true -> plain e = true ->
  unique_ids w -> Sql.next_rowid (users w) = Some i ->
  fst (create_user u p e w) = Returns true
  /\ get_user_data (PyInt i) (snd (create_user u p e w))
     = (Returns (Some (Sql.Row i u (md5_hex p) e)),
        snd (create_user u p e w))
  /\ (digest_shaped p = false -> md5_hex p <> p).
Proof.
  intros Hu He [_ Hall] Hi.
  rewrite (create_user_plain u p e w i Hu He Hi). split; [reflexivity|].
  split.
  - rewrite get_user_data_int
      by (apply int64_not_too_long; now apply (next_rowid_int64 (users w))).
    cbn [fst snd users set_users].
    rewrite filter_app, filter_none.
    + cbn. now rewrite Z.eqb_refl.
    + intros r Hr. apply Z.eqb_neq.
      pose proof (next_rowid_unused (users w) i Hi r Hr). lia.
  - intros Hp Heq. rewrite <- Heq, md5_hex_digest_shaped in Hp. discriminate.
Qed.

Lemma plain_user_retrieved_witness :
  fst (create_user "alice" "pw123" "a@x.com" fresh) = Returns true
  /\ get_user_data (PyInt 1) (snd (create_user "alice" "pw123" "a@x.com" fresh))
     = (Returns (Some (Sql.Row 1 "alice" (md5_hex "pw123") "a@x.com")),
        snd (create_user "alice" "pw123" "a@x.com" fresh))
  /\ (digest_shaped "pw123" = false -> md5_hex "pw123" <> "pw123").
Proof.
  apply (plain_user_retrieved "alice" "pw123" "a@x.com" fresh 1);
    try reflexivity.
  split; constructor.
Defined.

(** ** Names with a quote *)

Lemma lex_in_word_quote (w acc rest : string) :
  all_chars Sql.is_alpha w = true ->
  String.eqb (acc ++ w) "x" || String.eqb (acc ++ w) "X" = false ->
  Sql.lex (Sql.InWord acc) (w ++ String "'" rest)%string
  = Sql.TWord (acc ++ w)%string :: Sql.lex (Sql.InStr EmptyString) rest.
Proof.
  revert acc. induction w as [|c w IH]; intros acc Hw Hx.
  - rewrite append_nil_r in *. simpl. rewrite Hx. reflexivity.
  - simpl in Hw. apply andb_true_iff in Hw as [Hc Hw].
    simpl. rewrite Hc. simpl. rewrite IH.
    + unfold Sql.snoc. now rewrite append_assoc.
    + assumption.
    + unfold Sql.snoc. now rewrite append_assoc.
Qed.

Lemma lex_quoted_word (word acc rest : string) :
  word <> EmptyString -> all_chars Sql.is_alpha word = true ->
  String.eqb word "x" || String.eqb word "X" = false ->
  Sql.lex (Sql.StrQuote acc) (word ++ String "'" rest)%string
  = Sql.TStr acc :: Sql.TWord word
      :: Sql.lex (Sql.InStr EmptyString) rest.
Proof.
  destruct word as [|c word]; [congruence|]. intros _ Hw Hx.
  simpl in Hw. apply andb_true_iff in Hw as [Hc Hw].
  assert (Hs : Sql.is_space c = false) by (revert Hc; clear; by_char c).
  assert (Hq : Ascii.eqb c Sql.quote = false) by (revert Hc; clear; by_char c).
  simpl. rewrite Hq. unfold Sql.after, Sql.step_normal. rewrite Hs, Hc. simpl.
  now rewrite (lex_in_word_quote word (String c EmptyString)).
Qed.

(** X22: a name with an apostrophe is refused.  When the username is
    plain text, a quote and a word of letters that is no keyword of the
    engine (and not the prefix [x] of a blob literal), such as O'Brien,
    [create_user] returns false, prints the syntax error of the engine at
    that word and stores nothing. *)
Theorem quoted_name_refused (a word p e : string) (w : world) :
  plain a = true ->
  word <> EmptyString -> all_chars Sql.is_alpha word = true ->
  Sql.is_keyword word = false ->
  String.eqb word "x" || String.eqb word "X" = false ->
  no_nul e = true ->
  create_user (a ++ "'" ++ word) p e w
  = (Returns false,
     print ("Database error: " ++ Sql.syntax_error word)%string w).
Proof.
  intros Ha Hne Hw Hk Hx He.
  unfold create_user, create_user_when, Sql.execute.
  assert (Hn : Sql.has_nul (insert_query (a ++ "'" ++ word) (md5_hex p) e)
               = false).
  { unfold insert_query.
    rewrite !has_nul_app, (plain_no_nul a Ha),
      (plain_no_nul _ (md5_hex_plain p)), (no_nul_false e He),
      (alpha_no_nul _ Hw).
    reflexivity. }
  rewrite Hn.
  assert (Htok : exists junk,
             Sql.tokens (insert_query (a ++ "'" ++ word) (md5_hex p) e)
             = Sql.insert_head
                 ++ [Sql.TLParen; Sql.TStr a; Sql.TWord word] ++ junk).
  { eexists. unfold Sql.tokens, insert_query. rewrite !append_assoc. simpl.
    rewrite lex_literal by assumption. simpl.
    rewrite lex_quoted_word by assumption. reflexivity. }
  destruct Htok as [junk ->].
  cbn -[Sql.is_keyword]. unfold Sql.run_insert. cbn [Sql.values_rows].
  unfold Sql.misplaced. rewrite Hk. reflexivity.
Qed.

Lemma quoted_name_refused_witness :
  create_user "O'Brien" "pw123" "ob@x.com" two_alices
  = (Returns false,
     print ("Database error: " ++ Sql.syntax_error "Brien")%string two_alices).
Proof.
  apply (quoted_name_refused "O" "Brien" "pw123" "ob@x.com" two_alices);
    (reflexivity || discriminate).
Defined.
